(** * Apple-Calendar-to-Json: the agenda filter and the ICS exporter

    A shallow embedding of [Query-JSON.py] and [json_to_ics.py].

    Python values are modelled as follows.
    - [str] is a sequence of Unicode code points: [list N].  String
      literals of the source are written [lit "..."]; the one literal that
      is not ASCII (the en dash of the agenda's time range) is spelled by
      its code point.
    - A JSON object is a finite map from keys to JSON values ([gmap]); only
      scalar values are modelled.
    - An exception is a value of [py_error]; code that may raise returns a
      [result].
    - An aware [datetime] is its wall-clock reading in microseconds since
      0001-01-01T00:00:00 together with its zone. *)

From Stdlib Require Import ZArith NArith List String Ascii Bool Lia.
From Stdlib Require Import DecimalString DecimalN Permutation Sorted.
From stdpp Require Import base strings gmap list.

Import ListNotations.

(** ** Python strings *)

Abbreviation char := N (only parsing).
Abbreviation str := (list N) (only parsing).

Definition lit (s : string) : str :=
  map N_of_ascii (list_ascii_of_string s).

Definition ch_backslash : char := 92%N.
Definition ch_newline : char := 10%N.
Definition ch_semicolon : char := 59%N.
Definition ch_comma : char := 44%N.
Definition ch_space : char := 32%N.
Definition ch_n : char := 110%N.
Definition ch_endash : char := 8211%N.

Definition crlf : str := [13%N; 10%N].

(** [old.join(parts)] *)
Fixpoint join (sep : str) (parts : list str) : str :=
  match parts with
  | [] => []
  | [p] => p
  | p :: rest => p ++ sep ++ join sep rest
  end.

(** [s.replace(old, new)] for a pattern [old] of one character, the only
    shape the source uses. *)
Definition replace1 (old : char) (new : str) (s : str) : str :=
  flat_map (fun c => if N.eqb c old then new else [c]) s.

(** Number of octets of a code point, and of a string, in UTF-8 (the
    encoding both tools read and write). *)
Definition utf8_len (c : char) : nat :=
  if (c <? 128)%N then 1
  else if (c <? 2048)%N then 2
  else if (c <? 65536)%N then 3
  else 4.

Definition octets (s : str) : nat :=
  fold_right (fun c acc => utf8_len c + acc) 0 s.

Definition is_ascii (s : str) : Prop := Forall (fun c => (c < 128)%N) s.

(** ** Interval overlap ([Query-JSON.py], [overlaps])

    The arguments are aware datetimes in UTC; Python orders them by their
    instant, here an integer number of microseconds. *)

Module Overlap.

Definition overlaps (a_start a_end b_start b_end : Z) : bool :=
  (a_start <? b_end)%Z && (a_end >? b_start)%Z.

End Overlap.

(** ** Exceptions *)

Inductive py_error :=
| ValueError
| AttributeError
| OverflowError
| ZoneInfoNotFoundError
| SystemExit (status : Z) (message : str)
    (** [sys.exit(n)] after printing [message], or [SystemExit(message)],
        whose exit status is 1 *)
| NoReturn.
    (** a loop that was given too little fuel *)

Inductive result (A : Type) :=
| Ok (a : A)
| Raise (e : py_error).
Arguments Ok {A} a.
Arguments Raise {A} e.

Definition bind {A B} (r : result A) (k : A -> result B) : result B :=
  match r with
  | Ok a => k a
  | Raise e => Raise e
  end.

Notation "x <- c1 ;; c2" := (bind c1 (fun x => c2))
  (at level 100, c1 at next level, right associativity).

Fixpoint mapM {A B} (f : A -> result B) (l : list A) : result (list B) :=
  match l with
  | [] => Ok []
  | a :: l' => b <- f a ;; bs <- mapM f l' ;; Ok (b :: bs)
  end.

Definition exit_status (e : py_error) : Z :=
  match e with
  | SystemExit status _ => status
  | _ => 1
  end.

(** ** More of [str] *)

(** [str.isspace] on one character. *)
Definition is_space (c : char) : bool :=
  ((9 <=? c) && (c <=? 13) || (28 <=? c) && (c <=? 32) || (c =? 133)
   || (c =? 160) || (c =? 5760) || (8192 <=? c) && (c <=? 8202)
   || (c =? 8232) || (c =? 8233) || (c =? 8239) || (c =? 8287)
   || (c =? 12288))%N.

Fixpoint lstrip (s : str) : str :=
  match s with
  | c :: s' => if is_space c then lstrip s' else s
  | [] => []
  end.

Definition strip (s : str) : str := rev (lstrip (rev (lstrip s))).

(** [str.lower] on ASCII text; other code points, for which CPython asks
    the Unicode database, are left as they are.  None of them lower-cases
    to a letter of "today" or "tomorrow", the words the result is
    compared with. *)
Definition lower_char (c : char) : char :=
  if ((65 <=? c) && (c <=? 90))%N then (c + 32)%N else c.

Definition lower (s : str) : str := map lower_char s.

Definition str_eqb (a b : str) : bool := bool_decide (a = b).

(** [s.endswith(suffix)] *)
Definition endswith (s suffix : str) : bool :=
  str_eqb (drop (length s - length suffix) s) suffix
  && (length suffix <=? length s)%nat.

(** [str(n)] for a natural number. *)
Definition dec (n : N) : str := lit (NilZero.string_of_uint (N.to_uint n)).

(** [s.rjust(width, "0")], as the two-digit directives pad. *)
Definition zfill (width : nat) (s : str) : str :=
  repeat 48%N (width - length s) ++ s.

(** [f"{s:<width}"]: the text, then spaces up to [width] characters. *)
Definition ljust (width : nat) (s : str) : str :=
  s ++ repeat ch_space (width - length s).

(** ** JSON values and event records *)

Inductive json :=
| JNull
| JBool (b : bool)
| JInt (z : Z)
| JStr (s : str).

Abbreviation event := (gmap string json) (only parsing).

(** Python truth value of a decoded JSON scalar. *)
Definition truthy (v : json) : bool :=
  match v with
  | JNull => false
  | JBool b => b
  | JInt z => negb (z =? 0)%Z
  | JStr s => negb (str_eqb s [])
  end.

(** [e.get(k)] *)
Definition get (e : event) (k : string) : json := default JNull (e !! k).

(** [str(v)], as an f-string renders a value. *)
Definition py_str (v : json) : str :=
  match v with
  | JNull => lit "None"
  | JBool true => lit "True"
  | JBool false => lit "False"
  | JInt z => (if (z <? 0)%Z then lit "-" else []) ++ dec (Z.to_N (Z.abs z))
  | JStr s => s
  end.

(** The decoded input file: the value under the key [events], if any. *)
Record payload := { events_key : option (list (gmap string json)) }.

(** [payload.get("events", [])] *)
Definition payload_events (p : payload) : list (gmap string json) :=
  default [] (events_key p).

(** ** Dates and times

    A [date] is its proleptic Gregorian ordinal ([date.toordinal()]: day 1
    is 0001-01-01); a wall-clock reading is a number of microseconds since
    0001-01-01T00:00:00. *)

Local Open Scope Z_scope.

Definition us_per_second : Z := 1000000.
Definition us_per_day : Z := 86400 * us_per_second.
Definition MAXORDINAL : Z := 3652059.
(** The first reading past 9999-12-31T23:59:59.999999. *)
Definition max_wall : Z := MAXORDINAL * us_per_day.

Definition is_leap (year : Z) : bool :=
  (year mod 4 =? 0) && (negb (year mod 100 =? 0) || (year mod 400 =? 0)).

Definition DAYS_IN_MONTH : list Z :=
  [31; 28; 31; 30; 31; 30; 31; 31; 30; 31; 30; 31].
Definition DAYS_BEFORE_MONTH : list Z :=
  [0; 31; 59; 90; 120; 151; 181; 212; 243; 273; 304; 334].

Definition days_in_month (year month : Z) : Z :=
  if (month =? 2) && is_leap year then 29
  else nth (Z.to_nat (month - 1)) DAYS_IN_MONTH 0.

Definition days_before_month (year month : Z) : Z :=
  nth (Z.to_nat (month - 1)) DAYS_BEFORE_MONTH 0
  + (if (2 <? month) && is_leap year then 1 else 0).

Definition days_before_year (year : Z) : Z :=
  let y := year - 1 in y * 365 + y / 4 - y / 100 + y / 400.

Definition ymd2ord (year month day : Z) : Z :=
  days_before_year year + days_before_month year month + day.

(** CPython's [_ord2ymd]: ordinal to (year, month, day). *)
Definition ord2ymd (ordinal : Z) : Z * Z * Z :=
  let n := ordinal - 1 in
  let n400 := n / 146097 in
  let n := n mod 146097 in
  let n100 := n / 36524 in
  let n := n mod 36524 in
  let n4 := n / 1461 in
  let n := n mod 1461 in
  let n1 := n / 365 in
  let n := n mod 365 in
  let year := n400 * 400 + 1 + n100 * 100 + n4 * 4 + n1 in
  if (n1 =? 4) || (n100 =? 4) then (year - 1, 12, 31)
  else
    let leapyear := (n1 =? 3) && (negb (n4 =? 24) || (n100 =? 3)) in
    let month := Z.shiftr (n + 50) 5 in
    let preceding :=
      nth (Z.to_nat (month - 1)) DAYS_BEFORE_MONTH 0
      + (if (2 <? month) && leapyear then 1 else 0) in
    if n <? preceding then
      let month := month - 1 in
      let preceding :=
        preceding
        - (nth (Z.to_nat (month - 1)) DAYS_IN_MONTH 0
           + (if (month =? 2) && leapyear then 1 else 0)) in
      (year, month, n - preceding + 1)
    else (year, month, n - preceding + 1).

(** A zone gives the offset from UTC, in microseconds, of a wall-clock
    reading in the zone ([tzinfo.utcoffset]) and the offset in force at a
    UTC instant (what [tzinfo.fromutc] adds). *)
Record tzinfo := {
  utcoffset : Z -> Z;
  offset_at_utc : Z -> Z
}.

(** [timezone(timedelta(microseconds=off))] *)
Definition fixed_zone (off : Z) : tzinfo :=
  {| utcoffset := fun _ => off; offset_at_utc := fun _ => off |}.

(** [timezone.utc] *)
Definition utc : tzinfo := fixed_zone 0.

Record datetime := {
  wall : Z;
  dt_tzinfo : option tzinfo
}.

Definition in_range (w : Z) : bool := (0 <=? w) && (w <? max_wall).

(** [dt.astimezone(target)].  A naive [dt] is read in the system's local
    zone [system]. *)
Definition astimezone (system target : tzinfo) (dt : datetime)
  : result datetime :=
  let src := default system (dt_tzinfo dt) in
  let instant := wall dt - utcoffset src (wall dt) in
  if in_range instant then
    let w := instant + offset_at_utc target instant in
    if in_range w then Ok {| wall := w; dt_tzinfo := Some target |}
    else Raise OverflowError
  else Raise OverflowError.

(** [dt.date()] *)
Definition date_of (dt : datetime) : Z := wall dt / us_per_day + 1.

(** [d + timedelta(days=n)] on a date. *)
Definition date_add_days (d n : Z) : result Z :=
  let d' := d + n in
  if (1 <=? d') && (d' <=? MAXORDINAL) then Ok d' else Raise OverflowError.

(** [dt.hour], [dt.minute], [dt.second] *)
Definition hour_of (dt : datetime) : Z :=
  (wall dt mod us_per_day) / (3600 * us_per_second).
Definition minute_of (dt : datetime) : Z :=
  (wall dt mod us_per_day) / (60 * us_per_second) mod 60.
Definition second_of (dt : datetime) : Z :=
  (wall dt mod us_per_day) / us_per_second mod 60.

(** [strftime] directives.  [%Y] is the year as the C library prints
    it: glibc, taken here, does not pad a year below 1000, and from 1000
    on every platform prints the four digits. *)
Definition fmt_Y (year : Z) : str := dec (Z.to_N year).
Definition fmt_02 (n : Z) : str := zfill 2 (dec (Z.to_N n)).

(** [d.strftime("%Y%m%d")] *)
Definition strftime_Ymd (d : Z) : str :=
  let '(y, m, dd) := ord2ymd d in
  fmt_Y y ++ fmt_02 m ++ fmt_02 dd.

(** [dt.strftime("%Y%m%dT%H%M%SZ")] *)
Definition strftime_YmdTHMSZ (dt : datetime) : str :=
  strftime_Ymd (date_of dt) ++ lit "T"
  ++ fmt_02 (hour_of dt) ++ fmt_02 (minute_of dt) ++ fmt_02 (second_of dt)
  ++ lit "Z".

(** [dt.strftime("%-I:%M %p")] *)
Definition strftime_IMp (dt : datetime) : str :=
  let h := hour_of dt in
  let h12 := if h mod 12 =? 0 then 12 else h mod 12 in
  dec (Z.to_N h12) ++ lit ":" ++ fmt_02 (minute_of dt) ++ lit " "
  ++ (if h <? 12 then lit "AM" else lit "PM").

Definition WEEKDAYS : list string :=
  ["Monday"; "Tuesday"; "Wednesday"; "Thursday"; "Friday"; "Saturday";
   "Sunday"]%string.
Definition MONTHS : list string :=
  ["January"; "February"; "March"; "April"; "May"; "June"; "July";
   "August"; "September"; "October"; "November"; "December"]%string.

(** [d.strftime("%A, %B %-d, %Y")] *)
Definition strftime_header (d : Z) : str :=
  let '(y, m, dd) := ord2ymd d in
  lit (nth (Z.to_nat ((d + 6) mod 7)) WEEKDAYS ""%string) ++ lit ", "
  ++ lit (nth (Z.to_nat (m - 1)) MONTHS ""%string) ++ lit " "
  ++ dec (Z.to_N dd) ++ lit ", " ++ fmt_Y y.

(** ** The standard library's ISO 8601 parsers

    [date.fromisoformat] and [datetime.fromisoformat] are not part of the
    repository.  The tools below take them as parameters; the two
    definitions here give the parameters a value where a concrete run is
    evaluated. *)

Definition digit (c : char) : option Z :=
  if ((48 <=? c) && (c <=? 57))%N then Some (Z.of_N c - 48) else None.

Fixpoint digits_from (acc : Z) (s : str) : option Z :=
  match s with
  | [] => Some acc
  | c :: s' =>
      match digit c with
      | Some d => digits_from (acc * 10 + d) s'
      | None => None
      end
  end.

(** A non-empty run of decimal digits. *)
Definition number (s : str) : option Z :=
  match s with
  | [] => None
  | _ => digits_from 0 s
  end.

(** Modelled from the spec: [date.fromisoformat] of the standard library,
    which the spec describes as accepting a strict [YYYY-MM-DD] string.
    [None] stands for [ValueError]. *)
Definition date_fromisoformat_strict (s : str) : option Z :=
  match s with
  | [y1; y2; y3; y4; h1; m1; m2; h2; d1; d2] =>
      if ((h1 =? 45) && (h2 =? 45))%N then
        match number [y1; y2; y3; y4], number [m1; m2], number [d1; d2] with
        | Some y, Some m, Some d =>
            if (1 <=? y) && (1 <=? m) && (m <=? 12) && (1 <=? d)
               && (d <=? days_in_month y m)
            then Some (ymd2ord y m d)
            else None
        | _, _, _ => None
        end
      else None
  | _ => None
  end.

(** [HH:MM], as microseconds. *)
Definition parse_HM (s : str) : option Z :=
  match s with
  | [a; b; c; d; e] =>
      if (c =? 58)%N then
        match number [a; b], number [d; e] with
        | Some h, Some m =>
            if (h <? 24) && (m <? 60)
            then Some ((h * 3600 + m * 60) * us_per_second)
            else None
        | _, _ => None
        end
      else None
  | _ => None
  end.

(** [+HH:MM] or [-HH:MM], or nothing. *)
Definition parse_offset (s : str) : option (option Z) :=
  match s with
  | [] => Some None
  | sign :: hm =>
      if (sign =? 43)%N then option_map Some (parse_HM hm)
      else if (sign =? 45)%N then
        option_map (fun off => Some (- off)) (parse_HM hm)
      else None
  end.

(** [.ffffff] or [.fff], or nothing, followed by the offset. *)
Definition parse_fraction_offset (s : str) : option (Z * option Z) :=
  match s with
  | dot :: rest =>
      if (dot =? 46)%N then
        match (if (6 <=? length rest)%nat then number (take 6 rest)
               else None) with
        | Some us => option_map (pair us) (parse_offset (drop 6 rest))
        | None =>
            match (if (3 <=? length rest)%nat then number (take 3 rest)
                   else None) with
            | Some ms =>
                option_map (pair (ms * 1000)) (parse_offset (drop 3 rest))
            | None => None
            end
        end
      else option_map (pair 0) (parse_offset s)
  | [] => Some (0, None)
  end.

(** [HH:MM:SS[.fff[fff]][+HH:MM]]: microseconds into the day and offset. *)
Definition parse_time (s : str) : option (Z * option Z) :=
  match parse_HM (take 5 s), drop 5 s with
  | Some hm, colon :: s1 :: s2 :: rest =>
      if (colon =? 58)%N then
        match number [s1; s2], parse_fraction_offset rest with
        | Some sec, Some (us, off) =>
            if sec <? 60 then Some (hm + sec * us_per_second + us, off)
            else None
        | _, _ => None
        end
      else None
  | _, _ => None
  end.

(** Modelled from the spec: [datetime.fromisoformat] of the standard
    library, for the shapes [YYYY-MM-DD] and
    [YYYY-MM-DD?HH:MM:SS[.fff[fff]][+HH:MM]] ([?] is any one character). *)
Definition datetime_fromisoformat (s : str) : result datetime :=
  match date_fromisoformat_strict (take 10 s), drop 10 s with
  | Some d, [] => Ok {| wall := (d - 1) * us_per_day; dt_tzinfo := None |}
  | Some d, _ :: t =>
      match parse_time t with
      | Some (tod, off) =>
          Ok {| wall := (d - 1) * us_per_day + tod;
                dt_tzinfo := option_map fixed_zone off |}
      | None => Raise ValueError
      end
  | None, _ => Raise ValueError
  end.

(** ** Calendar text ([json_to_ics.py]) *)

Definition escape_ics_text (s : str) : str :=
  let s := replace1 ch_backslash [ch_backslash; ch_backslash] s in
  let s := replace1 ch_newline [ch_backslash; ch_n] s in
  let s := replace1 ch_semicolon [ch_backslash; ch_semicolon] s in
  let s := replace1 ch_comma [ch_backslash; ch_comma] s in
  s.

(** The [while] loop of [fold_ics_line]; [fuel] bounds its iterations. *)
Fixpoint fold_while (fuel limit : nat) (line : str) (out : list str)
  : result (list str) :=
  if (limit <? length line)%nat then
    match fuel with
    | O => Raise NoReturn
    | S fuel' =>
        fold_while fuel' limit (ch_space :: drop limit line)
                   (out ++ [take limit line])
    end
  else Ok (out ++ [line]).

Definition fold_ics_line_fuel (fuel : nat) (line : str) (limit : nat)
  : result str :=
  if (length line <=? limit)%nat then Ok line
  else out <- fold_while fuel limit line [] ;; Ok (join crlf out).

(** [fold_ics_line(line)] with the default [limit]; one iteration per
    character of the line is fuel enough. *)
Definition fold_ics_line (line : str) : result str :=
  fold_ics_line_fuel (length line) line 75.

(** ** The ICS exporter ([json_to_ics.py]) *)

Module Exporter.

Record output := {
  written : str;   (** what is written to the output path *)
  stdout : str     (** the confirmation line *)
}.

Definition usage : str :=
  lit "Usage: python3 json_to_ics.py <input.json> <output.ics>".

Definition calendar_header : list str :=
  [lit "BEGIN:VCALENDAR";
   lit "VERSION:2.0";
   lit "PRODID:-//Apple-Calendar-to-Json//caldump-json-to-ics//EN";
   lit "CALSCALE:GREGORIAN";
   lit "METHOD:PUBLISH"].

Section Run.

(** What one run of the interpreter fixes: the standard library's parser,
    the built-in [hash] of this process on the triple it is applied to,
    the zone database, the environment's [TZ], and the clock (the current
    UTC reading). *)
Variable fromisoformat : str -> result datetime.
Variable hash : str * json * json -> Z.
Variable ZoneInfo : string -> result tzinfo.
Variable environ_TZ : option string.
Variable clock : Z.

(** [datetime.now(timezone.utc)] *)
Definition now : datetime := {| wall := clock; dt_tzinfo := Some utc |}.

Definition parse_iso8601 (v : json) : result datetime :=
  match v with
  | JStr s =>
      let s :=
        if endswith s (lit "Z")
        then take (length s - 1) s ++ lit "+00:00"
        else s in
      fromisoformat s
  | _ => Raise AttributeError
  end.

(** The exporter calls [to_utc_z] on aware datetimes only ([now], and
    the parsed times once normalized); Python would read a naive one in
    the host's zone, which this run does not have. *)
Definition to_utc_z (dt : datetime) : result str :=
  dt_utc <- astimezone utc utc dt ;;
  Ok (strftime_YmdTHMSZ dt_utc).

(** [(v or "").strip()] *)
Definition stripped (v : json) : result str :=
  match v with
  | JStr s => Ok (strip s)
  | other => if truthy other then Raise AttributeError else Ok (strip [])
  end.

(** [x or y] on strings. *)
Definition or_else (x y : str) : str :=
  if str_eqb x [] then y else x.

(** [(e.get("title") or "").strip() or "(No Title)"] *)
Definition event_title (e : event) : result str :=
  t <- stripped (get e "title") ;; Ok (or_else t (lit "(No Title)")).

(** The f-string that stands in for a missing id. *)
Definition fallback_uid (title : str) (e : event) : str :=
  lit "no-id-"
  ++ dec (Z.to_N (Z.abs (hash (title, get e "start", get e "end")))).

Definition event_uid (title : str) (e : event) : result str :=
  i <- stripped (get e "id") ;; Ok (or_else i (fallback_uid title e)).

(** [e.get("allDay", False)] *)
Definition all_day_field (e : event) : json :=
  default (JBool false) (e !! "allDay").

(** The two date lines of an all-day event. *)
Definition all_day_lines (tz : tzinfo) (start_dt end_dt : datetime)
  : result (list str) :=
  start_local <- astimezone utc tz start_dt ;;
  let start_local_date := date_of start_local in
  end_local <- astimezone utc tz end_dt ;;
  let end_local_date := date_of end_local in
  end_local_date <-
    (if end_local_date <=? start_local_date
     then date_add_days start_local_date 1
     else Ok end_local_date) ;;
  Ok [lit "DTSTART;VALUE=DATE:" ++ strftime_Ymd start_local_date;
      lit "DTEND;VALUE=DATE:" ++ strftime_Ymd end_local_date].

Definition timed_lines (start_dt end_dt : datetime) : result (list str) :=
  s <- to_utc_z start_dt ;;
  e <- to_utc_z end_dt ;;
  Ok [lit "DTSTART:" ++ s; lit "DTEND:" ++ e].

(** [if dt.tzinfo is None: dt = dt.replace(tzinfo=timezone.utc)] *)
Definition normalize (dt : datetime) : datetime :=
  match dt_tzinfo dt with
  | None => {| wall := wall dt; dt_tzinfo := Some utc |}
  | Some _ => dt
  end.

(** [LOCATION] and [DESCRIPTION] lines. *)
Definition optional_line (label : str) (v : json) : result (list str) :=
  t <- stripped v ;;
  Ok (if str_eqb t [] then [] else [label ++ escape_ics_text t]).

(** The body of the loop over [events]: the lines one record appends to
    [lines], each already folded; none when the record is skipped. *)
Definition export_event (tz : tzinfo) (e : event) : result (list str) :=
  title <- event_title e ;;
  uid <- event_uid title e ;;
  let all_day := truthy (all_day_field e) in
  let start_raw := get e "start" in
  let end_raw := get e "end" in
  if negb (truthy start_raw) || negb (truthy end_raw) then Ok []
  else
    start_dt <- parse_iso8601 start_raw ;;
    end_dt <- parse_iso8601 end_raw ;;
    let start_dt := normalize start_dt in
    let end_dt := normalize end_dt in
    stamp <- to_utc_z now ;;
    dates <-
      (if all_day then all_day_lines tz start_dt end_dt
       else timed_lines start_dt end_dt) ;;
    location <- optional_line (lit "LOCATION:") (get e "location") ;;
    notes <- optional_line (lit "DESCRIPTION:") (get e "notes") ;;
    let vevent :=
      [lit "BEGIN:VEVENT";
       lit "UID:" ++ escape_ics_text uid;
       lit "DTSTAMP:" ++ stamp]
      ++ dates
      ++ [lit "SUMMARY:" ++ escape_ics_text title]
      ++ location ++ notes
      ++ [lit "END:VEVENT"] in
    mapM fold_ics_line vevent.

(** [lines] when the loop is over and the trailer appended. *)
Definition calendar_lines (tz : tzinfo) (events : list (gmap string json))
  : result (list str) :=
  blocks <- mapM (export_event tz) events ;;
  Ok (calendar_header ++ concat blocks ++ [lit "END:VCALENDAR"]).

Definition main (argv : list str) (input : payload) : result output :=
  match argv with
  | [_; in_path; out_path] =>
      let tz_name := default "America/New_York"%string environ_TZ in
      tz <- ZoneInfo tz_name ;;
      let events := payload_events input in
      lines <- calendar_lines tz events ;;
      Ok {| written := join crlf lines ++ crlf;
            stdout := lit "OK: wrote ICS to " ++ out_path
                      ++ lit " (events: "
                      ++ dec (N.of_nat (length events)) ++ lit ")" |}
  | _ => Raise (SystemExit 2 usage)
  end.

End Run.

End Exporter.

(** ** The day agenda ([Query-JSON.py]) *)

Module Agenda.

Definition usage : str :=
  lit "Usage: events_for_day.py <events.json> [today|tomorrow|YYYY-MM-DD]".

Definition bad_date : str :=
  lit "Date must be " ++ [34%N] ++ lit "today" ++ [34%N] ++ lit ", "
  ++ [34%N] ++ lit "tomorrow" ++ [34%N] ++ lit ", or YYYY-MM-DD.".

(** An entry of [matches]. *)
Record agenda_match := {
  m_title : json;
  m_start : datetime;
  m_end : datetime;
  m_all_day : json
}.

Definition format_time_range (start_local end_local : datetime)
           (all_day : json) : str :=
  if truthy all_day then lit "All Day"
  else
    let start_str := strftime_IMp start_local in
    let end_str := strftime_IMp end_local in
    start_str ++ [ch_space; ch_endash; ch_space] ++ end_str.

(** [matches.sort(key=...)]: a stable sort by an integer key. *)
Fixpoint insert_by {A} (key : A -> Z) (x : A) (l : list A) : list A :=
  match l with
  | [] => [x]
  | y :: l' =>
      if key x <=? key y then x :: y :: l' else y :: insert_by key x l'
  end.

Definition sort_by {A} (key : A -> Z) (l : list A) : list A :=
  fold_right (insert_by key) [] l.

(** [print(f"{time_str:<18} {m['title']}")] *)
Definition agenda_line (m : agenda_match) : str :=
  let time_str := format_time_range (m_start m) (m_end m) (m_all_day m) in
  ljust 18 time_str ++ [ch_space] ++ py_str (m_title m).

Section Run.

(** What one run fixes: the standard library's two parsers ([None] is
    [ValueError]), the zone [LOCAL_TZ], the system's local zone (in which
    [astimezone] reads a naive datetime), and the clock (the current UTC
    reading). *)
Variable fromisoformat : str -> result datetime.
Variable date_fromisoformat : str -> option Z.
Variable LOCAL_TZ : tzinfo.
Variable system_tz : tzinfo.
Variable clock : Z.

Definition parse_iso8601_z (v : json) : result datetime :=
  match v with
  | JStr s =>
      let s :=
        if endswith s (lit "Z")
        then take (length s - 1) s ++ lit "+00:00"
        else s in
      dt <- fromisoformat s ;;
      astimezone system_tz utc dt
  | _ => Raise AttributeError
  end.

Definition day_bounds_utc (target_date : Z) (tz : tzinfo)
  : result (datetime * datetime) :=
  let start_local :=
    {| wall := (target_date - 1) * us_per_day; dt_tzinfo := Some tz |} in
  end_local <-
    (let w := wall start_local + us_per_day in
     if in_range w then Ok {| wall := w; dt_tzinfo := Some tz |}
     else Raise OverflowError) ;;
  a <- astimezone system_tz utc start_local ;;
  b <- astimezone system_tz utc end_local ;;
  Ok (a, b).

Definition resolve_target_date (arg : option str) (tz : tzinfo)
  : result Z :=
  let today := (clock + offset_at_utc tz clock) / us_per_day + 1 in
  match arg with
  | None => Ok today
  | Some a =>
      if str_eqb (lower a) (lit "today") then Ok today
      else if str_eqb (lower a) (lit "tomorrow") then date_add_days today 1
      else
        match date_fromisoformat a with
        | Some d => Ok d
        | None => Raise (SystemExit 1 bad_date)
        end
  end.

(** The body of the loop over [events]: the entry one record appends to
    [matches], if any. *)
Definition match_event (day_start_utc day_end_utc : datetime) (e : event)
  : result (list agenda_match) :=
  match e !! "start", e !! "end" with
  | Some start_raw, Some end_raw =>
      start_utc <- parse_iso8601_z start_raw ;;
      end_utc <- parse_iso8601_z end_raw ;;
      if Overlap.overlaps (wall start_utc) (wall end_utc)
                          (wall day_start_utc) (wall day_end_utc)
      then
        start_local <- astimezone system_tz LOCAL_TZ start_utc ;;
        end_local <- astimezone system_tz LOCAL_TZ end_utc ;;
        Ok [{| m_title :=
                 (if truthy (get e "title") then get e "title"
                  else JStr (lit "(No Title)"));
               m_start := start_local;
               m_end := end_local;
               m_all_day := default (JBool false) (e !! "allDay") |}]
      else Ok []
  | _, _ => Ok []
  end.

(** [matches] after the loop and the sort. *)
Definition sorted_matches (day_start_utc day_end_utc : datetime)
           (events : list (gmap string json)) : result (list agenda_match) :=
  found <- mapM (match_event day_start_utc day_end_utc) events ;;
  Ok (sort_by (fun m => wall (m_start m)) (concat found)).

(** The lines printed to standard output. *)
Definition main (argv : list str) (input : payload) : result (list str) :=
  match argv with
  | _ :: json_path :: rest =>
      let day_arg := head rest in
      target_date <- resolve_target_date day_arg LOCAL_TZ ;;
      bounds <- day_bounds_utc target_date LOCAL_TZ ;;
      let events := payload_events input in
      matches <- sorted_matches (fst bounds) (snd bounds) events ;;
      Ok ([strftime_header target_date; []]
          ++ (match matches with
              | [] => [lit "No events."]
              | _ => map agenda_line matches
              end))
  | _ => Raise (SystemExit 2 usage)
  end.

End Run.

End Agenda.

(** ** Definitions that follow the specification's words

    These are what the statements below compare the code with. *)

(** Calendar-text escaping, one character at a time: a backslash, a
    newline, a semicolon and a comma each become one escape of two
    characters; any other character stays. *)
Definition escape_char_spec (c : char) : str :=
  if (c =? 92)%N then [ch_backslash; ch_backslash]
  else if (c =? 10)%N then [ch_backslash; ch_n]
  else if (c =? 59)%N then [ch_backslash; ch_semicolon]
  else if (c =? 44)%N then [ch_backslash; ch_comma]
  else [c].

Definition is_special (c : char) : bool :=
  ((c =? 92) || (c =? 10) || (c =? 59) || (c =? 44))%N.

(** A decimal digit. *)
Definition is_digit (c : N) : Prop := (48 <= c <= 57)%N.

(** A column padded on its left: spaces first, then the text. *)
Definition left_padded_spec (width : nat) (s : str) : str :=
  repeat ch_space (width - length s) ++ s.

(** The instant an aware datetime denotes, as a UTC reading.  A naive
    datetime denotes none by itself: Python reads it in the host's zone. *)
Definition utc_instant (dt : datetime) : option Z :=
  match dt_tzinfo dt with
  | Some zone => Some (wall dt - utcoffset zone (wall dt))
  | None => None
  end.

(** The first day of the year 1000, from which on [%Y] has four digits
    on every platform. *)
Definition year_1000 : Z := ymd2ord 1000 1 1.

(** Unfolding, as a reader of the calendar does it (RFC 5545, 3.1): every
    CRLF that is followed by a space is taken out together with the
    space. *)
Fixpoint unfold_ics (s : list N) : list N :=
  match s with
  | 13%N :: 10%N :: 32%N :: rest => unfold_ics rest
  | c :: rest => c :: unfold_ics rest
  | [] => []
  end.

(** An optional string field of the data model: absent, null or a string. *)
Definition text_field (v : json) : bool :=
  match v with
  | JNull | JStr _ => true
  | _ => false
  end.

(** The exporter's test for a record it skips. *)
Definition missing_times (e : event) : bool :=
  negb (truthy (get e "start")) || negb (truthy (get e "end")).

(** Number of [BEGIN:VEVENT] lines among the calendar's lines. *)
Definition vevent_blocks (lines : list str) : nat :=
  length (List.filter (fun l => str_eqb l (lit "BEGIN:VEVENT")) lines).

(** ** Zones and records for concrete runs *)

(** The wall-clock reading [year-month-day hour:minute]. *)
Definition reading (year month day hour minute : Z) : Z :=
  ((ymd2ord year month day - 1) * 86400 + hour * 3600 + minute * 60)
  * us_per_second.

(** [ZoneInfo("America/New_York")] as the zone database has it for 2026:
    daylight time from 8 March, 07:00 UTC, to 1 November, 06:00 UTC. *)
Definition america_new_york_2026 : tzinfo :=
  let est := -5 * 3600 * us_per_second in
  let edt := -4 * 3600 * us_per_second in
  {| utcoffset := fun w =>
       if (reading 2026 3 8 3 0 <=? w) && (w <? reading 2026 11 1 2 0)
       then edt else est;
     offset_at_utc := fun t =>
       if (reading 2026 3 8 7 0 <=? t) && (t <? reading 2026 11 1 6 0)
       then edt else est |}.

Definition zoneinfo_2026 (name : string) : result tzinfo :=
  if String.eqb name "America/New_York" then Ok america_new_york_2026
  else if String.eqb name "UTC" then Ok utc
  else Raise ZoneInfoNotFoundError.

(** An all-day record whose start and end are both 2026-02-19T00:00:00Z. *)
Definition all_day_feb19 : gmap string json :=
  <["id" := JStr (lit "A1")]>
  (<["title" := JStr (lit "Holiday")]>
  (<["start" := JStr (lit "2026-02-19T00:00:00Z")]>
  (<["end" := JStr (lit "2026-02-19T00:00:00Z")]>
  (<["allDay" := JBool true]> ∅)))).

(** The record of the source's docstring. *)
Definition standup : gmap string json :=
  <["id" := JStr (lit "S1")]>
  (<["title" := JStr (lit "Standup")]>
  (<["start" := JStr (lit "2026-02-19T14:00:00.000Z")]>
  (<["end" := JStr (lit "2026-02-19T14:15:00.000Z")]>
  (<["allDay" := JBool false]> ∅)))).

(** A clock reading, 2026-02-20T12:00:00Z, and command lines. *)
Definition sample_clock : Z := reading 2026 2 20 12 0.

Definition exporter_argv : list (list N) :=
  [lit "json_to_ics.py"; lit "exchange.json"; lit "exchange.ics"].

Definition agenda_argv (day : string) : list (list N) :=
  [lit "Query-JSON.py"; lit "exchange.json"; lit day].

(** The same record without its [end]. *)
Definition standup_no_end : gmap string json := delete "end" standup.

(** The same record without its [id]. *)
Definition standup_no_id : gmap string json := delete "id" standup.

(** * Properties *)

(** ** The overlap test *)

Section OverlapFacts.

Import Overlap.

Lemma overlaps_iff a_start a_end b_start b_end :
  overlaps a_start a_end b_start b_end = true <->
  a_start < b_end /\ b_start < a_end.
Proof.
  unfold overlaps.
  rewrite andb_true_iff, Z.ltb_lt, Z.gtb_ltb, Z.ltb_lt.
  reflexivity.
Qed.

(** C8.  The overlap test is symmetric in its two intervals. *)
Theorem overlaps_symmetric a_start a_end b_start b_end :
  overlaps a_start a_end b_start b_end = overlaps b_start b_end a_start a_end.
Proof.
  unfold overlaps. rewrite !Z.gtb_ltb. apply andb_comm.
Qed.

(** C1, as the claim has it, fails: the zero-length interval [5, 5) lies
    strictly inside [0, 10) and the test answers true. *)
Lemma zero_length_inside_overlaps : overlaps 5 5 0 10 = true.
Proof. reflexivity. Qed.

(** C1, amended.  A zero-length interval [x, x) overlaps [b_start, b_end)
    exactly when x lies strictly inside it; so it overlaps neither itself,
    nor another zero-length interval, nor an interval it only touches at an
    end. *)
Theorem zero_length_overlap x b_start b_end :
  (overlaps x x b_start b_end = true <-> b_start < x < b_end)
  /\ overlaps x x x x = false
  /\ (forall y, overlaps x x y y = false)
  /\ overlaps x x x b_end = false
  /\ overlaps x x b_start x = false.
Proof.
  split; [rewrite overlaps_iff; lia |].
  repeat split; try intros y; apply not_true_is_false;
    rewrite overlaps_iff; lia.
Qed.

End OverlapFacts.

(** ** Escaping *)

Section EscapeFacts.

Lemma escape_one (c : N) :
  escape_ics_text [c] = escape_char_spec c.
Proof.
  unfold escape_ics_text, escape_char_spec, replace1, ch_backslash,
    ch_newline, ch_semicolon, ch_comma, ch_n.
  destruct (N.eqb_spec c 92) as [->|?]; [reflexivity|].
  destruct (N.eqb_spec c 10) as [->|?]; [reflexivity|].
  destruct (N.eqb_spec c 59) as [->|?]; [reflexivity|].
  destruct (N.eqb_spec c 44) as [->|?]; [reflexivity|].
  simpl.
  repeat match goal with
  | |- context [N.eqb c ?k] => destruct (N.eqb_spec c k); [lia|]; simpl
  end.
  reflexivity.
Qed.

Lemma escape_app (s t : list N) :
  escape_ics_text (s ++ t) = escape_ics_text s ++ escape_ics_text t.
Proof.
  unfold escape_ics_text, replace1. rewrite !flat_map_app. reflexivity.
Qed.

Lemma escape_char_length c :
  length (escape_char_spec c) = if is_special c then 2%nat else 1%nat.
Proof.
  unfold escape_char_spec, is_special.
  destruct (c =? 92)%N, (c =? 10)%N, (c =? 59)%N, (c =? 44)%N; reflexivity.
Qed.

(** C6.  The four replacements, backslash first, amount to one pass that
    turns every special character into its own escape and copies every
    other character: no inserted backslash is escaped again, and the
    output is longer than the input by the number of special characters. *)
Theorem escape_ics_text_one_pass (s : list N) :
  escape_ics_text s = flat_map escape_char_spec s
  /\ length (escape_ics_text s)
     = (length s + length (List.filter is_special s))%nat.
Proof.
  assert (E : escape_ics_text s = flat_map escape_char_spec s).
  { induction s as [|c s IH]; [reflexivity|].
    change (c :: s) with ([c] ++ s).
    rewrite escape_app, escape_one, IH. reflexivity. }
  split; [exact E|].
  rewrite E. clear E.
  induction s as [|c s IH]; [reflexivity|].
  simpl flat_map. rewrite length_app, IH, escape_char_length.
  simpl List.filter. destruct (is_special c); simpl; lia.
Qed.

End EscapeFacts.

(** ** Folding *)

Section FoldFacts.

(** The loop, entered with a line that starts with the inserted space:
    it cuts the rest of the line into chunks and hands each one on behind
    a space. *)
Lemma fold_while_chunks fuel limit (rest : list N) out :
  (2 <= limit)%nat -> rest <> [] ->
  (length rest <= fuel + (limit - 1))%nat ->
  exists chunks,
    fold_while fuel limit (ch_space :: rest) out
    = Ok (out ++ map (cons ch_space) chunks)
    /\ chunks <> []
    /\ concat chunks = rest
    /\ Forall (fun c => (1 <= length c <= limit - 1)%nat) chunks.
Proof.
  intros Hlimit. revert rest out.
  assert (Last : forall (rest : list N) out, rest <> [] ->
            (length rest <= limit - 1)%nat ->
            exists chunks,
              Ok (out ++ [ch_space :: rest])
              = Ok (out ++ map (cons ch_space) chunks)
              /\ chunks <> []
              /\ concat chunks = rest
              /\ Forall (fun c => (1 <= length c <= limit - 1)%nat) chunks).
  { intros rest out Hne Hlen. exists [rest]. simpl.
    rewrite app_nil_r. repeat split; [discriminate|].
    constructor; [|constructor].
    destruct rest; [congruence | simpl in *; lia]. }
  induction fuel as [|fuel IH]; intros rest out Hne Hlen.
  - simpl. destruct (Nat.ltb_spec limit (S (length rest))) as [H|H].
    + lia.
    + apply Last; [assumption | lia].
  - simpl. destruct (Nat.ltb_spec limit (S (length rest))) as [H|H].
    + destruct limit as [|l]; [lia|].
      simpl take. simpl drop.
      destruct (IH (drop l rest) (out ++ [ch_space :: take l rest]))
        as (chunks & E & _ & Hcat & Hall).
      * intros D. apply (f_equal length) in D.
        rewrite length_drop in D. simpl in D. lia.
      * rewrite length_drop. lia.
      * exists (take l rest :: chunks). rewrite E. simpl.
        rewrite <- app_assoc. simpl.
        repeat split; [discriminate | |].
        -- rewrite Hcat. apply take_drop.
        -- constructor; [|exact Hall].
           rewrite length_take. lia.
    + apply Last; [assumption | lia].
Qed.

(** The shape of a folded line, for any limit of at least two. *)
Lemma fold_ics_line_fuel_shape fuel (line : list N) limit :
  (2 <= limit)%nat -> (length line <= fuel)%nat ->
  (limit < length line)%nat ->
  exists chunks,
    fold_ics_line_fuel fuel line limit
    = Ok (join crlf (take limit line :: map (cons ch_space) chunks))
    /\ chunks <> []
    /\ take limit line ++ concat chunks = line
    /\ Forall (fun c => (1 <= length c <= limit - 1)%nat) chunks.
Proof.
  intros Hlimit Hfuel Hlong. unfold fold_ics_line_fuel.
  destruct (Nat.leb_spec (length line) limit) as [H|_]; [lia|].
  destruct fuel as [|fuel]; [lia|]. simpl.
  destruct (Nat.ltb_spec limit (length line)) as [_|H]; [|lia].
  destruct (fold_while_chunks fuel limit (drop limit line) [take limit line])
    as (chunks & E & Hne & Hcat & Hall); try assumption.
  - intros D. apply (f_equal length) in D.
    rewrite length_drop in D. simpl in D. lia.
  - rewrite length_drop. lia.
  - exists chunks. rewrite E. simpl.
    repeat split; try assumption.
    rewrite Hcat. apply take_drop.
Qed.

Lemma fold_ics_line_short (line : list N) :
  (length line <= 75)%nat -> fold_ics_line line = Ok line.
Proof.
  intros H. unfold fold_ics_line, fold_ics_line_fuel.
  destruct (Nat.leb_spec (length line) 75); [reflexivity | lia].
Qed.

Lemma fold_ics_line_long (line : list N) :
  (75 < length line)%nat ->
  exists chunks,
    fold_ics_line line
    = Ok (join crlf (take 75 line :: map (cons ch_space) chunks))
    /\ chunks <> []
    /\ take 75 line ++ concat chunks = line
    /\ Forall (fun c => (1 <= length c <= 74)%nat) chunks.
Proof.
  intros H. apply (fold_ics_line_fuel_shape (length line) line 75); lia.
Qed.

(** Folding always returns. *)
Lemma fold_ics_line_total (line : list N) :
  exists folded, fold_ics_line line = Ok folded.
Proof.
  destruct (Nat.le_gt_cases (length line) 75) as [H|H].
  - exists line. apply fold_ics_line_short, H.
  - destruct (fold_ics_line_long line H) as (chunks & E & _). eauto.
Qed.

Lemma octets_ascii (s : list N) : is_ascii s -> octets s = length s.
Proof.
  induction 1 as [|c s Hc _ IH]; [reflexivity|].
  simpl. rewrite IH. unfold utf8_len.
  destruct (N.ltb_spec c 128); [reflexivity | lia].
Qed.

(** C5, as the claim has it, fails on a line that is not ASCII: of 76
    letters e-acute the first segment keeps 75, which are 150 octets in
    the UTF-8 file. *)
Lemma fold_segment_over_75_octets :
  fold_ics_line (repeat 233%N 76)
  = Ok (join crlf [repeat 233%N 75; [ch_space; 233%N]])
  /\ octets (repeat 233%N 75) = 150%nat.
Proof. split; reflexivity. Qed.

(** C5, amended.  A line of at most 75 characters is returned as it is.
    A longer line becomes its first 75 characters followed by
    continuation segments, joined by CRLF; every continuation segment is
    one inserted space followed by a non-empty chunk of the line; the
    first segment and the chunks, concatenated, are the line again; every
    segment has at most 75 characters, which are at most 75 octets when
    the line is ASCII. *)
Theorem fold_ics_line_round_trip (line : list N) :
  ((length line <= 75)%nat -> fold_ics_line line = Ok line)
  /\ ((75 < length line)%nat ->
      exists first chunks,
        let segments := first :: map (cons ch_space) chunks in
        fold_ics_line line = Ok (join crlf segments)
        /\ chunks <> []
        /\ first ++ concat chunks = line
        /\ Forall (fun c => c <> []) chunks
        /\ Forall (fun seg => (length seg <= 75)%nat) segments
        /\ (is_ascii line ->
            Forall (fun seg => (octets seg <= 75)%nat) segments)).
Proof.
  split; [apply fold_ics_line_short|].
  intros Hlong.
  destruct (fold_ics_line_long line Hlong) as (chunks & E & Hne & Hcat & Hall).
  exists (take 75 line), chunks. cbv zeta.
  assert (Hseg : Forall (fun seg : list N => (length seg <= 75)%nat)
                   (take 75 line :: map (cons ch_space) chunks)).
  { constructor.
    - rewrite length_take. lia.
    - apply Forall_map. eapply Forall_impl; [exact Hall|].
      intros c Hc. simpl in *. lia. }
  repeat split; try assumption.
  - eapply Forall_impl; [exact Hall|].
    intros c Hc ->. simpl in Hc. lia.
  - intros Hascii.
    assert (Hall_ascii : Forall is_ascii
              (take 75 line :: map (cons ch_space) chunks)).
    { rewrite <- Hcat in Hascii. unfold is_ascii in Hascii.
      apply Forall_app in Hascii. destruct Hascii as [Hfirst Hrest].
      constructor.
      - exact Hfirst.
      - apply Forall_map. rewrite Forall_concat in Hrest.
        eapply Forall_impl; [exact Hrest|].
        intros c Hc. constructor; [reflexivity | exact Hc]. }
    clear - Hseg Hall_ascii.
    induction Hseg as [|seg segs Hlen _ IH]; [constructor|].
    inversion Hall_ascii as [|? ? Ha Hb]; subst.
    constructor; [|apply IH, Hb].
    rewrite octets_ascii by exact Ha. exact Hlen.
Qed.

Lemma fold_ics_line_round_trip_witness :
  fold_ics_line (lit "END:VEVENT") = Ok (lit "END:VEVENT")
  /\ exists first chunks,
       let segments := first :: map (cons ch_space) chunks in
       fold_ics_line (repeat 65%N 200) = Ok (join crlf segments)
       /\ chunks <> []
       /\ first ++ concat chunks = repeat 65%N 200
       /\ Forall (fun c => c <> []) chunks
       /\ Forall (fun seg => (length seg <= 75)%nat) segments
       /\ (is_ascii (repeat 65%N 200) ->
           Forall (fun seg => (octets seg <= 75)%nat) segments).
Proof.
  split.
  - apply (proj1 (fold_ics_line_round_trip (lit "END:VEVENT"))).
    simpl. lia.
  - apply (proj2 (fold_ics_line_round_trip (repeat 65%N 200))).
    rewrite repeat_length. lia.
Defined.

End FoldFacts.

(** ** Strings and numbers *)

Section StringFacts.

Lemma lit_inj (a b : string) : lit a = lit b -> a = b.
Proof.
  unfold lit. intros H.
  rewrite <- (string_of_list_ascii_of_string a).
  rewrite <- (string_of_list_ascii_of_string b).
  f_equal.
  revert H. generalize (list_ascii_of_string a) (list_ascii_of_string b).
  induction l as [|x l IH]; intros [|y l'] H; simpl in H;
    try discriminate; [reflexivity|].
  injection H as Hxy Hl. f_equal; [|apply IH, Hl].
  rewrite <- (ascii_N_embedding x), <- (ascii_N_embedding y).
  congruence.
Qed.

(** Distinct numbers have distinct decimal renderings. *)
Lemma dec_inj (m n : N) : dec m = dec n -> m = n.
Proof.
  unfold dec. intros H. apply lit_inj in H.
  apply DecimalN.Unsigned.to_uint_inj.
  assert (nonnil : forall k, N.to_uint k <> Decimal.Nil).
  { intros [|p]; [discriminate|].
    apply DecimalPos.Unsigned.to_uint_nonnil. }
  pose proof (NilZero.usu _ (nonnil m)) as Hm.
  pose proof (NilZero.usu _ (nonnil n)) as Hn.
  rewrite H in Hm. congruence.
Qed.

Lemma zfill_length width (s : list N) :
  length (zfill width s) = Nat.max width (length s).
Proof. unfold zfill. rewrite length_app, repeat_length. lia. Qed.

Lemma ljust_length width (s : list N) :
  length (ljust width s) = Nat.max width (length s).
Proof. unfold ljust. rewrite length_app, repeat_length. lia. Qed.

(** Numbers from 1000 to 9999 have four digits, numbers below 100 at
    most two: checked on each of them. *)
Lemma dec_length_4 (n : Z) :
  1000 <= n < 10000 -> length (dec (Z.to_N n)) = 4%nat.
Proof.
  intros H.
  assert (All : forallb (fun k => (length (dec (N.of_nat k)) =? 4)%nat)
                  (seq (Z.to_nat 1000) (Z.to_nat 9000)) = true)
    by (vm_compute; reflexivity).
  rewrite forallb_forall in All.
  specialize (All (Z.to_nat n)).
  rewrite Z_nat_N in All.
  apply Nat.eqb_eq, All, in_seq. lia.
Qed.

Lemma dec_length_2 (n : Z) :
  0 <= n < 100 -> (length (dec (Z.to_N n)) <= 2)%nat.
Proof.
  intros H.
  assert (All : forallb (fun k => (length (dec (N.of_nat k)) <=? 2)%nat)
                  (seq 0 100) = true) by (vm_compute; reflexivity).
  rewrite forallb_forall in All.
  specialize (All (Z.to_nat n)).
  rewrite Z_nat_N in All.
  apply Nat.leb_le, All, in_seq. lia.
Qed.

End StringFacts.

(** ** The fallback identifier *)

Section UidFacts.

Import Exporter.

Lemma or_else_empty (y : list N) : or_else [] y = y.
Proof. reflexivity. Qed.

Lemma fallback_uid_eq (hash1 hash2 : list N * json * json -> Z) title e :
  fallback_uid hash1 title e = fallback_uid hash2 title e <->
  Z.abs (hash1 (title, get e "start", get e "end"))
  = Z.abs (hash2 (title, get e "start", get e "end")).
Proof.
  unfold fallback_uid. split.
  - intros H. apply app_inv_head, dec_inj in H. lia.
  - intros ->. reflexivity.
Qed.

(** C2.  For a record whose trimmed id is empty, the UID is the fallback
    built from the built-in hash of (title, start, end); two runs, whose
    processes have the hash functions [hash1] and [hash2], give the
    record the same UID exactly when the two hashes of the triple agree
    up to sign.  CPython salts the hash of a string anew in every process,
    so they do not. *)
Theorem fallback_uid_across_runs
        (hash1 hash2 : list N * json * json -> Z) title
        (e : gmap string json) :
  stripped (get e "id") = Ok [] ->
  event_uid hash1 title e = Ok (fallback_uid hash1 title e)
  /\ event_uid hash2 title e = Ok (fallback_uid hash2 title e)
  /\ (event_uid hash1 title e = event_uid hash2 title e <->
      Z.abs (hash1 (title, get e "start", get e "end"))
      = Z.abs (hash2 (title, get e "start", get e "end"))).
Proof.
  intros Hid. unfold event_uid. rewrite Hid. simpl.
  rewrite !or_else_empty. repeat split.
  - intros H. apply fallback_uid_eq. congruence.
  - intros H. f_equal. apply fallback_uid_eq, H.
Qed.

Lemma fallback_uid_across_runs_witness :
  event_uid (fun _ => 1) (lit "Standup") standup_no_id
  <> event_uid (fun _ => 2) (lit "Standup") standup_no_id.
Proof.
  intros H.
  apply (fallback_uid_across_runs (fun _ => 1) (fun _ => 2)
           (lit "Standup") standup_no_id) in H.
  - discriminate H.
  - reflexivity.
Defined.

End UidFacts.

(** ** Dates *)

Section DateFacts.

(** Year, month and day of an ordinal in Python's range of dates. *)
Lemma ord2ymd_bounds d y m dd :
  1 <= d <= MAXORDINAL -> ord2ymd d = (y, m, dd) ->
  1 <= y <= 9999 /\ 1 <= m <= 12 /\ 1 <= dd <= 31.
Proof.
  unfold ord2ymd, MAXORDINAL. intros Hd. cbv zeta.
  rewrite Z.shiftr_div_pow2 by lia. change (2 ^ 5) with 32.
  pose proof (Z.div_mod (d - 1) 146097 ltac:(lia)) as E400.
  pose proof (Z.mod_pos_bound (d - 1) 146097 ltac:(lia)) as B400.
  set (n400 := (d - 1) / 146097) in *.
  set (r400 := (d - 1) mod 146097) in *.
  pose proof (Z.div_mod r400 36524 ltac:(lia)) as E100.
  pose proof (Z.mod_pos_bound r400 36524 ltac:(lia)) as B100.
  set (n100 := r400 / 36524) in *.
  set (r100 := r400 mod 36524) in *.
  pose proof (Z.div_mod r100 1461 ltac:(lia)) as E4.
  pose proof (Z.mod_pos_bound r100 1461 ltac:(lia)) as B4.
  set (n4 := r100 / 1461) in *.
  set (r4 := r100 mod 1461) in *.
  pose proof (Z.div_mod r4 365 ltac:(lia)) as E1.
  pose proof (Z.mod_pos_bound r4 365 ltac:(lia)) as B1.
  set (n1 := r4 / 365) in *.
  set (n := r4 mod 365) in *.
  pose proof (Z.div_mod (n + 50) 32 ltac:(lia)) as Em.
  pose proof (Z.mod_pos_bound (n + 50) 32 ltac:(lia)) as Bm.
  set (month := (n + 50) / 32) in *.
  set (rm := (n + 50) mod 32) in *.
  clearbody n400 r400 n100 r100 n4 r4 n1 n month rm.
  assert (Hyear : 1 <= n400 * 400 + 1 + n100 * 100 + n4 * 4 + n1 <= 10000
                  /\ 0 <= n1 <= 4 /\ 0 <= n100 <= 4) by lia.
  destruct (n1 =? 4) eqn:Hn1; [|destruct (n100 =? 4) eqn:Hn100]; simpl.
  - intros [= <- <- <-]. apply Z.eqb_eq in Hn1. lia.
  - intros [= <- <- <-]. apply Z.eqb_eq in Hn100. lia.
  - apply Z.eqb_neq in Hn1, Hn100.
    generalize ((n1 =? 3) && (negb (n4 =? 24) || (n100 =? 3))).
    intros leapyear.
    assert (Hy : n400 * 400 + 1 + n100 * 100 + n4 * 4 + n1 <= 9999).
    { assert (C400 : n400 <= 23 \/ n400 = 24) by lia.
      assert (C100 : n100 <= 2 \/ n100 = 3) by lia.
      assert (C4 : n4 <= 23 \/ n4 = 24) by lia.
      destruct C400 as [?| ->]; [lia|].
      destruct C100 as [?| ->]; [lia|].
      destruct C4 as [?| ->]; lia. }
    assert (Hm : month = 1 \/ month = 2 \/ month = 3 \/ month = 4
                 \/ month = 5 \/ month = 6 \/ month = 7 \/ month = 8
                 \/ month = 9 \/ month = 10 \/ month = 11 \/ month = 12)
      by lia.
    destruct Hm as [-> | [-> | [-> | [-> | [-> | [-> | [-> | [-> | [-> |
                   [-> | [-> | ->]]]]]]]]]]];
      destruct leapyear; cbn;
      match goal with
      | |- context [n <? ?p] => destruct (Z.ltb_spec n p) as [H|H]
      end;
      simpl in H; intros [= <- <- <-]; lia.
Qed.

(** From 1000-01-01 on the year has four digits. *)
Lemma ord2ymd_year_from_1000 d y m dd :
  year_1000 <= d <= MAXORDINAL -> ord2ymd d = (y, m, dd) -> 1000 <= y.
Proof.
  change year_1000 with 364878.
  unfold ord2ymd, MAXORDINAL. intros Hd. cbv zeta.
  pose proof (Z.div_mod (d - 1) 146097 ltac:(lia)) as E400.
  pose proof (Z.mod_pos_bound (d - 1) 146097 ltac:(lia)) as B400.
  set (n400 := (d - 1) / 146097) in *.
  set (r400 := (d - 1) mod 146097) in *.
  pose proof (Z.div_mod r400 36524 ltac:(lia)) as E100.
  pose proof (Z.mod_pos_bound r400 36524 ltac:(lia)) as B100.
  set (n100 := r400 / 36524) in *.
  set (r100 := r400 mod 36524) in *.
  pose proof (Z.div_mod r100 1461 ltac:(lia)) as E4.
  pose proof (Z.mod_pos_bound r100 1461 ltac:(lia)) as B4.
  set (n4 := r100 / 1461) in *.
  set (r4 := r100 mod 1461) in *.
  pose proof (Z.div_mod r4 365 ltac:(lia)) as E1.
  pose proof (Z.mod_pos_bound r4 365 ltac:(lia)) as B1.
  set (n1 := r4 / 365) in *.
  set (n := r4 mod 365) in *.
  clearbody n400 r400 n100 r100 n4 r4 n1 n.
  assert (Hyear : 999 <= n400 * 400 + n100 * 100 + n4 * 4 + n1
                  /\ (n1 = 4 \/ n100 = 4 ->
                      1000 <= n400 * 400 + n100 * 100 + n4 * 4 + n1)).
  { assert (C400 : n400 = 2 \/ 3 <= n400) by lia.
    destruct C400 as [->|?]; [|lia].
    assert (C100 : n100 = 1 \/ 2 <= n100) by lia.
    destruct C100 as [->|?]; [|lia].
    assert (C4 : n4 = 24) by lia. subst n4. lia. }
  destruct Hyear as [Hyear Hlast].
  destruct (Z.eqb_spec n1 4) as [H1|H1];
    [|destruct (Z.eqb_spec n100 4) as [H100|H100]]; cbn [orb].
  - intros [= <- <- <-]. lia.
  - intros [= <- <- <-]. lia.
  - destruct (n <? _); intros [= <- <- <-]; lia.
Qed.

Lemma strftime_Ymd_length d :
  year_1000 <= d <= MAXORDINAL -> length (strftime_Ymd d) = 8%nat.
Proof.
  intros Hd. unfold strftime_Ymd.
  destruct (ord2ymd d) as [[y m] dd] eqn:E.
  assert (Hd1 : 1 <= d <= MAXORDINAL)
    by (change year_1000 with 364878 in Hd; lia).
  destruct (ord2ymd_bounds _ _ _ _ Hd1 E) as (Hy & Hm & Hdd).
  pose proof (ord2ymd_year_from_1000 _ _ _ _ Hd E) as Hy1000.
  unfold fmt_Y, fmt_02. rewrite !length_app, !zfill_length.
  rewrite (dec_length_4 y ltac:(lia)).
  pose proof (dec_length_2 m ltac:(lia)).
  pose proof (dec_length_2 dd ltac:(lia)).
  lia.
Qed.

(** The date of a reading in range is a date in range. *)
Lemma date_of_in_range dt :
  in_range (wall dt) = true -> 1 <= date_of dt <= MAXORDINAL.
Proof.
  unfold in_range, date_of, max_wall, us_per_day, us_per_second, MAXORDINAL.
  intros H. apply andb_true_iff in H. destruct H as [H1 H2].
  apply Z.leb_le in H1. apply Z.ltb_lt in H2.
  Z.div_mod_to_equations. lia.
Qed.

Lemma astimezone_in_range system target dt dt' :
  astimezone system target dt = Ok dt' ->
  in_range (wall dt') = true /\ dt_tzinfo dt' = Some target.
Proof.
  unfold astimezone.
  destruct (in_range (wall dt - _)); [|discriminate].
  destruct (in_range _) eqn:E; [|discriminate].
  intros [= <-]. simpl. auto.
Qed.

End DateFacts.

(** ** Loops in the [result] monad *)

Section ResultFacts.

Context {A B : Type}.

Lemma mapM_app (f : A -> result B) l1 l2 b1 b2 :
  mapM f l1 = Ok b1 -> mapM f l2 = Ok b2 ->
  mapM f (l1 ++ l2) = Ok (b1 ++ b2).
Proof.
  revert b1. induction l1 as [|a l1 IH]; intros b1 H1 H2; simpl in *.
  - injection H1 as <-. exact H2.
  - destruct (f a) as [b|]; [|discriminate]. simpl in *.
    destruct (mapM f l1) as [bs|]; [|discriminate]. simpl in *.
    injection H1 as <-. rewrite (IH bs eq_refl H2). reflexivity.
Qed.

Lemma mapM_total (f : A -> result B) l :
  (forall a, exists b, f a = Ok b) ->
  exists bs, mapM f l = Ok bs /\ length bs = length l.
Proof.
  intros Hf. induction l as [|a l (bs & E & Hlen)]; simpl.
  - exists []. auto.
  - destruct (Hf a) as (b & ->). rewrite E. simpl.
    exists (b :: bs). simpl. auto.
Qed.

Lemma mapM_fixed (f : A -> result A) l :
  Forall (fun a => f a = Ok a) l -> mapM f l = Ok l.
Proof.
  induction 1 as [|a l Ha _ IH]; simpl; [reflexivity|].
  rewrite Ha, IH. reflexivity.
Qed.

End ResultFacts.

(** A record for which the loop body appends nothing leaves no trace in
    what the loop collects. *)
Lemma mapM_skip {A B C} (f : A -> result (list B))
      (k : list B -> result C) pre e post :
  f e = Ok [] ->
  (bs <- mapM f (pre ++ e :: post) ;; k (concat bs))
  = (bs <- mapM f (pre ++ post) ;; k (concat bs)).
Proof.
  intros He. revert k. induction pre as [|a pre IH]; intros k; simpl.
  - rewrite He. simpl. destruct (mapM f post); reflexivity.
  - destruct (f a) as [b|]; [|reflexivity]. simpl.
    specialize (IH (fun l => k (b ++ l))). simpl in IH.
    destruct (mapM f (pre ++ e :: post)), (mapM f (pre ++ post));
      simpl in *; exact IH.
Qed.

(** ** The exporter *)

Section ExporterFacts.

Import Exporter.

Variable fromisoformat : list N -> result datetime.
Variable hash : list N * json * json -> Z.
Variable clock : Z.

Lemma to_utc_z_now :
  in_range clock = true ->
  to_utc_z (now clock) = Ok (strftime_YmdTHMSZ (now clock)).
Proof.
  intros H. unfold to_utc_z, astimezone, now. simpl.
  rewrite Z.sub_0_r, Z.add_0_r, H. reflexivity.
Qed.

Lemma stripped_text v :
  text_field v = true -> exists t, stripped v = Ok t.
Proof. destruct v; try discriminate; simpl; eauto. Qed.

Lemma optional_line_text label v :
  text_field v = true -> exists ls, optional_line label v = Ok ls.
Proof.
  intros H. destruct (stripped_text v H) as (t & E).
  unfold optional_line. rewrite E. simpl. eauto.
Qed.

(** What [all_day_lines] returns when both conversions succeed. *)
Lemma all_day_lines_ok tz start_dt end_dt start_local end_local :
  astimezone utc tz start_dt = Ok start_local ->
  astimezone utc tz end_dt = Ok end_local ->
  (date_of end_local <= date_of start_local ->
   date_of start_local < MAXORDINAL) ->
  all_day_lines tz start_dt end_dt
  = Ok [lit "DTSTART;VALUE=DATE:" ++ strftime_Ymd (date_of start_local);
        lit "DTEND;VALUE=DATE:"
        ++ strftime_Ymd (if date_of end_local <=? date_of start_local
                         then date_of start_local + 1
                         else date_of end_local)].
Proof.
  intros Hs He Hmax. unfold all_day_lines. rewrite Hs, He. simpl.
  destruct (Z.leb_spec (date_of end_local) (date_of start_local)) as [H|H];
    [|reflexivity].
  unfold date_add_days.
  apply astimezone_in_range in Hs. destruct Hs as [Hs _].
  apply date_of_in_range in Hs.
  destruct (Z.leb_spec 1 (date_of start_local + 1)); [|lia].
  destruct (Z.leb_spec (date_of start_local + 1) MAXORDINAL);
    [reflexivity|]. specialize (Hmax H). lia.
Qed.

(** An all-day record that has both times: the block the loop body
    appends holds, after three lines, the two date lines, unfolded. *)
Lemma all_day_event_lines tz (e : gmap string json)
      title uid start_dt end_dt start_local end_local :
  event_title e = Ok title ->
  event_uid hash title e = Ok uid ->
  truthy (all_day_field e) = true ->
  truthy (get e "start") = true ->
  truthy (get e "end") = true ->
  parse_iso8601 fromisoformat (get e "start") = Ok start_dt ->
  parse_iso8601 fromisoformat (get e "end") = Ok end_dt ->
  astimezone utc tz (normalize start_dt) = Ok start_local ->
  astimezone utc tz (normalize end_dt) = Ok end_local ->
  (date_of end_local <= date_of start_local ->
   date_of start_local < MAXORDINAL) ->
  year_1000 <= date_of start_local ->
  in_range clock = true ->
  text_field (get e "location") = true ->
  text_field (get e "notes") = true ->
  let dtstart := date_of start_local in
  let dtend :=
    if date_of end_local <=? dtstart then dtstart + 1
    else date_of end_local in
  (exists head tail,
     export_event fromisoformat hash clock tz e
     = Ok (head
           ++ [lit "DTSTART;VALUE=DATE:" ++ strftime_Ymd dtstart;
               lit "DTEND;VALUE=DATE:" ++ strftime_Ymd dtend]
           ++ tail)
     /\ length head = 3%nat)
  /\ dtstart < dtend
  /\ length (strftime_Ymd dtstart) = 8%nat
  /\ length (strftime_Ymd dtend) = 8%nat.
Proof.
  intros Htitle Huid Hall Hs He Hps Hpe Hsl Hel Hmax Hyear Hclock Hloc
         Hnotes dtstart dtend.
  pose proof (astimezone_in_range _ _ _ _ Hsl) as [Rs _].
  pose proof (astimezone_in_range _ _ _ _ Hel) as [Re _].
  apply date_of_in_range in Rs, Re. fold dtstart in Rs.
  assert (Rend : 1 <= dtend <= MAXORDINAL /\ dtstart < dtend).
  { unfold dtend.
    destruct (Z.leb_spec (date_of end_local) dtstart) as [H|H]; [|lia].
    specialize (Hmax H). fold dtstart in Hmax. lia. }
  destruct Rend as [Rend Hlt].
  fold dtstart in Hyear.
  pose proof (strftime_Ymd_length dtstart ltac:(lia)) as Ls.
  pose proof (strftime_Ymd_length dtend ltac:(lia)) as Le.
  split; [|auto].
  unfold export_event.
  rewrite Htitle. cbn [bind]. rewrite Huid. cbn [bind].
  rewrite Hs, He, Hall. cbn [negb orb].
  rewrite Hps, Hpe. cbn [bind].
  rewrite (to_utc_z_now Hclock). cbn [bind].
  rewrite (all_day_lines_ok _ _ _ _ _ Hsl Hel Hmax). cbn [bind].
  destruct (optional_line_text (lit "LOCATION:") _ Hloc) as (loc & ->).
  destruct (optional_line_text (lit "DESCRIPTION:") _ Hnotes)
    as (notes & ->).
  cbn [bind]. fold dtstart. fold dtend.
  destruct (mapM_total fold_ics_line
              [lit "BEGIN:VEVENT"; lit "UID:" ++ escape_ics_text uid;
               lit "DTSTAMP:" ++ strftime_YmdTHMSZ (now clock)]
              fold_ics_line_total) as (head & Ehead & Lhead).
  destruct (mapM_total fold_ics_line
              ([lit "SUMMARY:" ++ escape_ics_text title]
               ++ loc ++ notes ++ [lit "END:VEVENT"])
              fold_ics_line_total) as (tail & Etail & _).
  exists head, tail. split; [|exact Lhead].
  apply mapM_app; [exact Ehead|].
  apply (mapM_app _ [_; _] _ [_; _]); [|exact Etail].
  apply mapM_fixed.
  repeat constructor; apply fold_ics_line_short;
    rewrite length_app; simpl length; lia.
Qed.

(** C4, as the claim has it, fails in the zone the exporter uses when
    [TZ] is not set: 2026-02-19T00:00:00Z is the evening of 18 February
    in New York, and the block carries that date and the next. *)
Lemma all_day_feb19_default_zone :
  export_event datetime_fromisoformat (fun _ => 0) sample_clock
               america_new_york_2026 all_day_feb19
  = Ok [lit "BEGIN:VEVENT";
        lit "UID:A1";
        lit "DTSTAMP:20260220T120000Z";
        lit "DTSTART;VALUE=DATE:20260218";
        lit "DTEND;VALUE=DATE:20260219";
        lit "SUMMARY:Holiday";
        lit "END:VEVENT"]
  /\ zoneinfo_2026 (default "America/New_York"%string None)
     = Ok america_new_york_2026.
Proof. split; [vm_compute|]; reflexivity. Qed.

(** C4, amended.  An all-day record with both times, whose local start
    date is in the year 1000 or later, gets [DTSTART] and [DTEND] as bare
    dates of eight digits in the export zone, [DTEND] strictly after
    [DTSTART] (which is what makes it an exclusive end): the local end
    date, or the day after the local start date when the local end date
    is not after it.  The record
    with start = end = 2026-02-19T00:00:00Z gets 20260219 and 20260220
    when the export zone is UTC, and 20260218 and 20260219 in the default
    zone, America/New_York. *)
Theorem all_day_event_dates :
  (forall tz (e : gmap string json)
          title uid start_dt end_dt start_local end_local,
     event_title e = Ok title ->
     event_uid hash title e = Ok uid ->
     truthy (all_day_field e) = true ->
     truthy (get e "start") = true ->
     truthy (get e "end") = true ->
     parse_iso8601 fromisoformat (get e "start") = Ok start_dt ->
     parse_iso8601 fromisoformat (get e "end") = Ok end_dt ->
     astimezone utc tz (normalize start_dt) = Ok start_local ->
     astimezone utc tz (normalize end_dt) = Ok end_local ->
     (date_of end_local <= date_of start_local ->
      date_of start_local < MAXORDINAL) ->
     year_1000 <= date_of start_local ->
     in_range clock = true ->
     text_field (get e "location") = true ->
     text_field (get e "notes") = true ->
     let dtstart := date_of start_local in
     let dtend :=
       if date_of end_local <=? dtstart then dtstart + 1
       else date_of end_local in
     (exists head tail,
        export_event fromisoformat hash clock tz e
        = Ok (head
              ++ [lit "DTSTART;VALUE=DATE:" ++ strftime_Ymd dtstart;
                  lit "DTEND;VALUE=DATE:" ++ strftime_Ymd dtend]
              ++ tail)
        /\ length head = 3%nat)
     /\ dtstart < dtend
     /\ length (strftime_Ymd dtstart) = 8%nat
     /\ length (strftime_Ymd dtend) = 8%nat)
  /\ export_event datetime_fromisoformat hash sample_clock utc all_day_feb19
     = Ok [lit "BEGIN:VEVENT";
           lit "UID:A1";
           lit "DTSTAMP:20260220T120000Z";
           lit "DTSTART;VALUE=DATE:20260219";
           lit "DTEND;VALUE=DATE:20260220";
           lit "SUMMARY:Holiday";
           lit "END:VEVENT"]
  /\ export_event datetime_fromisoformat hash sample_clock
                  america_new_york_2026 all_day_feb19
     = Ok [lit "BEGIN:VEVENT";
           lit "UID:A1";
           lit "DTSTAMP:20260220T120000Z";
           lit "DTSTART;VALUE=DATE:20260218";
           lit "DTEND;VALUE=DATE:20260219";
           lit "SUMMARY:Holiday";
           lit "END:VEVENT"].
Proof.
  split; [|split; vm_compute; reflexivity].
  intros. apply all_day_event_lines with (title := title) (uid := uid)
    (start_dt := start_dt) (end_dt := end_dt); assumption.
Qed.

End ExporterFacts.

Lemma all_day_event_dates_witness :
  let start_local :=
    {| wall := reading 2026 2 19 0 0; dt_tzinfo := Some utc |} in
  exists head tail,
    Exporter.export_event datetime_fromisoformat (fun _ => 0) sample_clock
                          utc all_day_feb19
    = Ok (head
          ++ [lit "DTSTART;VALUE=DATE:"
              ++ strftime_Ymd (date_of start_local);
              lit "DTEND;VALUE=DATE:"
              ++ strftime_Ymd (date_of start_local + 1)]
          ++ tail)
    /\ length head = 3%nat.
Proof.
  intros start_local.
  refine (proj1 (proj1 (all_day_event_dates datetime_fromisoformat
                          (fun _ => 0) sample_clock)
                   utc all_day_feb19 (lit "Holiday") (lit "A1")
                   {| wall := reading 2026 2 19 0 0;
                      dt_tzinfo := Some (fixed_zone 0) |}
                   {| wall := reading 2026 2 19 0 0;
                      dt_tzinfo := Some (fixed_zone 0) |}
                   start_local start_local
                   _ _ _ _ _ _ _ _ _ _ _ _ _ _));
    try reflexivity.
  vm_compute. intros H. discriminate H.
Defined.

(** ** Counting the blocks of the calendar *)

Section BlockFacts.

Import Exporter.

Lemma vevent_blocks_app l1 l2 :
  vevent_blocks (l1 ++ l2) = (vevent_blocks l1 + vevent_blocks l2)%nat.
Proof.
  unfold vevent_blocks. rewrite List.filter_app, length_app. reflexivity.
Qed.

Lemma vevent_blocks_cons l ls :
  vevent_blocks (l :: ls)
  = ((if str_eqb l (lit "BEGIN:VEVENT") then 1 else 0) + vevent_blocks ls)%nat.
Proof.
  unfold vevent_blocks. simpl List.filter.
  destruct (str_eqb l (lit "BEGIN:VEVENT")); reflexivity.
Qed.

(** A line that does not start with the letter B is not [BEGIN:VEVENT]. *)
Lemma not_begin (c : N) (l : list N) :
  c <> 66%N -> str_eqb (c :: l) (lit "BEGIN:VEVENT") = false.
Proof.
  intros H. unfold str_eqb. apply bool_decide_eq_false.
  intros E. apply H.
  change (lit "BEGIN:VEVENT") with (66%N :: lit "EGIN:VEVENT") in E.
  congruence.
Qed.

(** Folding neither makes nor unmakes a [BEGIN:VEVENT] line. *)
Lemma fold_keeps_begin (line folded : list N) :
  fold_ics_line line = Ok folded ->
  str_eqb folded (lit "BEGIN:VEVENT") = str_eqb line (lit "BEGIN:VEVENT").
Proof.
  intros E. destruct (Nat.le_gt_cases (length line) 75) as [H|H].
  - rewrite (fold_ics_line_short line H) in E. congruence.
  - destruct (fold_ics_line_long line H) as (chunks & E' & Hne & Hcat & _).
    rewrite E' in E. injection E as <-.
    unfold str_eqb.
    rewrite !bool_decide_eq_false_2; [reflexivity | |].
    + intros ->. simpl in H. lia.
    + intros D. apply (f_equal length) in D.
      destruct chunks as [|c chunks]; [congruence|].
      simpl in D. rewrite length_app, length_take in D.
      change (length (lit "BEGIN:VEVENT")) with 12%nat in D. lia.
Qed.

Lemma fold_keeps_blocks lines folded :
  mapM fold_ics_line lines = Ok folded ->
  vevent_blocks folded = vevent_blocks lines.
Proof.
  revert folded. induction lines as [|l lines IH]; intros folded; simpl.
  - intros [= <-]. reflexivity.
  - destruct (fold_ics_line l) as [f|] eqn:E; [|discriminate]. simpl.
    destruct (mapM fold_ics_line lines) as [fs|]; [|discriminate]. simpl.
    intros [= <-]. rewrite !vevent_blocks_cons, (IH fs eq_refl).
    rewrite (fold_keeps_begin _ _ E). reflexivity.
Qed.

Lemma all_day_lines_blocks tz s e ls :
  all_day_lines tz s e = Ok ls -> vevent_blocks ls = 0%nat.
Proof.
  unfold all_day_lines.
  destruct (astimezone utc tz s); [|discriminate]. simpl.
  destruct (astimezone utc tz e); [|discriminate]. simpl.
  destruct (if _ <=? _ then _ else _); [|discriminate]. simpl.
  intros [= <-]. reflexivity.
Qed.

Lemma timed_lines_blocks s e ls :
  timed_lines s e = Ok ls -> vevent_blocks ls = 0%nat.
Proof.
  unfold timed_lines.
  destruct (to_utc_z s); [|discriminate]. simpl.
  destruct (to_utc_z e); [|discriminate]. simpl.
  intros [= <-]. reflexivity.
Qed.

Lemma optional_line_blocks (c : N) label v ls :
  c <> 66%N ->
  optional_line (c :: label) v = Ok ls -> vevent_blocks ls = 0%nat.
Proof.
  intros Hc. unfold optional_line.
  destruct (stripped v) as [t|]; [|discriminate]. simpl.
  intros [= <-]. destruct (str_eqb t []); [reflexivity|].
  rewrite vevent_blocks_cons. simpl app. rewrite (not_begin _ _ Hc).
  reflexivity.
Qed.

Variable fromisoformat : list N -> result datetime.
Variable hash : list N * json * json -> Z.
Variable clock : Z.

(** A record that is not skipped contributes one block, a skipped one
    none. *)
Lemma export_event_blocks tz (e : gmap string json) ls :
  export_event fromisoformat hash clock tz e = Ok ls ->
  vevent_blocks ls = if missing_times e then 0%nat else 1%nat.
Proof.
  unfold export_event, missing_times.
  destruct (event_title e) as [title|]; [|discriminate]. cbn [bind].
  destruct (event_uid hash title e) as [uid|]; [|discriminate]. cbn [bind].
  destruct (negb (truthy (get e "start")) || negb (truthy (get e "end"))).
  { intros [= <-]. reflexivity. }
  destruct (parse_iso8601 _ (get e "start")); [|discriminate]. cbn [bind].
  destruct (parse_iso8601 _ (get e "end")); [|discriminate]. cbn [bind].
  destruct (to_utc_z (now clock)) as [stamp|]; [|discriminate]. cbn [bind].
  destruct (if truthy (all_day_field e) then _ else _) as [dates|] eqn:Ed;
    [|discriminate]. cbn [bind].
  destruct (optional_line _ (get e "location")) as [loc|] eqn:El;
    [|discriminate]. cbn [bind].
  destruct (optional_line _ (get e "notes")) as [notes|] eqn:En;
    [|discriminate]. cbn [bind].
  intros E. rewrite (fold_keeps_blocks _ _ E).
  assert (Hd : vevent_blocks dates = 0%nat).
  { destruct (truthy (all_day_field e)).
    - eapply all_day_lines_blocks, Ed.
    - eapply timed_lines_blocks, Ed. }
  assert (Hl : vevent_blocks loc = 0%nat).
  { eapply (optional_line_blocks 76%N); [discriminate | exact El]. }
  assert (Hn : vevent_blocks notes = 0%nat).
  { eapply (optional_line_blocks 68%N); [discriminate | exact En]. }
  rewrite !vevent_blocks_app, Hd, Hl, Hn.
  reflexivity.
Qed.

Lemma calendar_blocks tz (events : list (gmap string json)) lines :
  calendar_lines fromisoformat hash clock tz events = Ok lines ->
  vevent_blocks lines
  = length (List.filter (fun e => negb (missing_times e)) events).
Proof.
  unfold calendar_lines.
  destruct (mapM _ events) as [blocks|] eqn:E; [|discriminate].
  cbn [bind]. intros H.
  assert (Hlines : lines = calendar_header ++ concat blocks
                           ++ [lit "END:VCALENDAR"]) by congruence.
  rewrite Hlines. clear H Hlines.
  rewrite !vevent_blocks_app.
  change (vevent_blocks calendar_header) with 0%nat.
  change (vevent_blocks [lit "END:VCALENDAR"]) with 0%nat.
  rewrite Nat.add_0_l, Nat.add_0_r.
  revert blocks E. induction events as [|e events IH]; intros blocks; simpl.
  - intros [= <-]. reflexivity.
  - destruct (export_event _ _ _ tz e) as [b|] eqn:Eb; [|discriminate].
    cbn [bind].
    destruct (mapM _ events) as [bs|]; [|discriminate].
    cbn [bind]. intros [= <-]. simpl concat.
    rewrite vevent_blocks_app, (IH bs eq_refl), (export_event_blocks _ _ _ Eb).
    destruct (missing_times e); reflexivity.
Qed.

End BlockFacts.

(** ** Records without a start or an end, and the printed count *)

Section SkipFacts.

Variable fromisoformat : list N -> result datetime.
Variable date_fromisoformat : list N -> option Z.
Variable hash : list N * json * json -> Z.
Variable ZoneInfo : string -> result tzinfo.
Variable environ_TZ : option string.
Variable LOCAL_TZ system_tz : tzinfo.
Variable clock : Z.

Lemma get_missing (e : gmap string json) k :
  e !! k = None -> truthy (get e k) = false.
Proof. unfold get. intros ->. reflexivity. Qed.

Lemma missing_key_missing_times (e : gmap string json) :
  e !! "start" = None \/ e !! "end" = None -> missing_times e = true.
Proof.
  unfold missing_times.
  intros [H|H]; rewrite (get_missing _ _ H); [reflexivity|].
  apply orb_true_r.
Qed.

Lemma agenda_skips day_start_utc day_end_utc (e : gmap string json) :
  e !! "start" = None \/ e !! "end" = None ->
  Agenda.match_event fromisoformat LOCAL_TZ system_tz
                     day_start_utc day_end_utc e = Ok [].
Proof.
  unfold Agenda.match_event. intros [-> | ->]; [reflexivity|].
  destruct (e !! "start"); reflexivity.
Qed.

Lemma exporter_skips tz (e : gmap string json) :
  missing_times e = true ->
  text_field (get e "title") = true ->
  text_field (get e "id") = true ->
  Exporter.export_event fromisoformat hash clock tz e = Ok [].
Proof.
  intros Hmiss Htitle Hid.
  destruct (stripped_text _ Htitle) as (t & Et).
  destruct (stripped_text _ Hid) as (i & Ei).
  unfold Exporter.export_event, Exporter.event_title, Exporter.event_uid.
  rewrite Et. cbn [bind]. rewrite Ei. cbn [bind].
  unfold missing_times in Hmiss. rewrite Hmiss. reflexivity.
Qed.

(** C7.  A record without the key [start] or without the key [end] (its
    title and id being text, null or absent, as in the data model) makes
    neither tool fail and leaves no trace: the agenda's loop appends no
    match for it and the exporter's loop no line, and with the record
    taken out of the input the agenda prints the same, and the exporter
    writes the same, as with it, whatever happens to the other records. *)
Theorem missing_start_or_end_skipped (e : gmap string json) pre post :
  e !! "start" = None \/ e !! "end" = None ->
  text_field (get e "title") = true ->
  text_field (get e "id") = true ->
  (forall day_start_utc day_end_utc,
     Agenda.match_event fromisoformat LOCAL_TZ system_tz
                        day_start_utc day_end_utc e = Ok [])
  /\ (forall argv,
        Agenda.main fromisoformat date_fromisoformat LOCAL_TZ system_tz
                    clock argv {| events_key := Some (pre ++ e :: post) |}
        = Agenda.main fromisoformat date_fromisoformat LOCAL_TZ system_tz
                      clock argv {| events_key := Some (pre ++ post) |})
  /\ (forall tz,
        Exporter.export_event fromisoformat hash clock tz e = Ok [])
  /\ (forall tz,
        Exporter.calendar_lines fromisoformat hash clock tz
                                (pre ++ e :: post)
        = Exporter.calendar_lines fromisoformat hash clock tz
                                  (pre ++ post))
  /\ (forall argv,
        (o <- Exporter.main fromisoformat hash ZoneInfo environ_TZ clock
                argv {| events_key := Some (pre ++ e :: post) |} ;;
         Ok (Exporter.written o))
        = (o <- Exporter.main fromisoformat hash ZoneInfo environ_TZ clock
                  argv {| events_key := Some (pre ++ post) |} ;;
           Ok (Exporter.written o))).
Proof.
  intros Hkey Htitle Hid.
  pose proof (missing_key_missing_times e Hkey) as Hmiss.
  assert (Hlines : forall tz,
             Exporter.calendar_lines fromisoformat hash clock tz
                                     (pre ++ e :: post)
             = Exporter.calendar_lines fromisoformat hash clock tz
                                       (pre ++ post)).
  { intros tz. unfold Exporter.calendar_lines.
    apply (mapM_skip _
             (fun l => Ok (Exporter.calendar_header ++ l
                           ++ [lit "END:VCALENDAR"]))).
    apply exporter_skips; assumption. }
  split; [intros; apply agenda_skips, Hkey|].
  split.
  { intros argv. unfold Agenda.main.
    destruct argv as [|prog [|json_path rest]]; try reflexivity.
    destruct (Agenda.resolve_target_date _ _ _ _) as [target|];
      [|reflexivity]. cbn [bind].
    destruct (Agenda.day_bounds_utc _ _ _) as [bounds|]; [|reflexivity].
    cbn [bind payload_events events_key default from_option id].
    unfold Agenda.sorted_matches.
    rewrite (mapM_skip _
               (fun l => Ok (Agenda.sort_by
                               (fun m => wall (Agenda.m_start m)) l))
               pre e post (agenda_skips _ _ e Hkey)).
    reflexivity. }
  split; [intros; apply exporter_skips; assumption|].
  split; [exact Hlines|].
  intros argv. unfold Exporter.main.
  destruct argv as [|a0 [|a1 [|a2 [|a3 rest]]]]; try reflexivity.
  destruct (ZoneInfo _) as [tz|]; [|reflexivity].
  cbn [bind payload_events events_key default from_option id].
  rewrite Hlines.
  destruct (Exporter.calendar_lines _ _ _ tz (pre ++ post));
    reflexivity.
Qed.

(** C10.  When the run succeeds, the count in the confirmation line is
    the length of the events array, while the calendar holds one
    [BEGIN:VEVENT] line for each record that has both times; so the
    count is never below the number of blocks and is above it as soon as
    a record was skipped. *)
Theorem confirmation_counts_every_record
        prog in_path out_path input tz lines :
  ZoneInfo (default "America/New_York"%string environ_TZ) = Ok tz ->
  Exporter.calendar_lines fromisoformat hash clock tz (payload_events input)
  = Ok lines ->
  Exporter.main fromisoformat hash ZoneInfo environ_TZ clock
                [prog; in_path; out_path] input
  = Ok {| Exporter.written := join crlf lines ++ crlf;
          Exporter.stdout :=
            lit "OK: wrote ICS to " ++ out_path ++ lit " (events: "
            ++ dec (N.of_nat (length (payload_events input))) ++ lit ")" |}
  /\ vevent_blocks lines
     = length (List.filter (fun e => negb (missing_times e))
                           (payload_events input))
  /\ (vevent_blocks lines <= length (payload_events input))%nat
  /\ (List.existsb missing_times (payload_events input) = true ->
      (vevent_blocks lines < length (payload_events input))%nat).
Proof.
  intros Hz Hlines.
  pose proof (calendar_blocks _ _ _ _ _ _ Hlines) as Hblocks.
  split.
  { unfold Exporter.main. rewrite Hz. cbn [bind]. rewrite Hlines.
    reflexivity. }
  split; [exact Hblocks|].
  rewrite Hblocks. clear.
  generalize (payload_events input). intros events.
  split.
  - apply List.filter_length_le.
  - induction events as [|e events IH]; simpl; [discriminate|].
    pose proof (List.filter_length_le
                  (fun e => negb (missing_times e)) events).
    destruct (missing_times e); simpl; [lia|].
    intros Hex. specialize (IH Hex). lia.
Qed.

End SkipFacts.

Lemma missing_start_or_end_skipped_witness :
  Agenda.main datetime_fromisoformat date_fromisoformat_strict
              america_new_york_2026 utc sample_clock
              (agenda_argv "2026-02-19")
              {| events_key := Some ([standup] ++ standup_no_end :: []) |}
  = Agenda.main datetime_fromisoformat date_fromisoformat_strict
                america_new_york_2026 utc sample_clock
                (agenda_argv "2026-02-19")
                {| events_key := Some ([standup] ++ []) |}.
Proof.
  refine (proj1 (proj2 (missing_start_or_end_skipped
                          datetime_fromisoformat date_fromisoformat_strict
                          (fun _ => 0) zoneinfo_2026 None
                          america_new_york_2026 utc sample_clock
                          standup_no_end [standup] [] _ _ _)) _).
  - right. reflexivity.
  - reflexivity.
  - reflexivity.
Defined.

Lemma confirmation_counts_every_record_witness :
  exists lines,
    Exporter.stdout
      <$> (match Exporter.main datetime_fromisoformat (fun _ => 0)
                   zoneinfo_2026 None sample_clock exporter_argv
                   {| events_key := Some [standup; standup_no_end] |} with
           | Ok o => Some o
           | Raise _ => None
           end)
    = Some (lit "OK: wrote ICS to exchange.ics (events: 2)")
    /\ Exporter.calendar_lines datetime_fromisoformat (fun _ => 0)
         sample_clock america_new_york_2026 [standup; standup_no_end]
       = Ok lines
    /\ vevent_blocks lines = 1%nat.
Proof.
  eexists.
  assert (Hl : Exporter.calendar_lines datetime_fromisoformat (fun _ => 0)
                 sample_clock america_new_york_2026
                 (payload_events
                    {| events_key := Some [standup; standup_no_end] |})
               = Ok _) by (vm_compute; reflexivity).
  destruct (confirmation_counts_every_record
              datetime_fromisoformat (fun _ => 0) zoneinfo_2026 None
              sample_clock
              (lit "json_to_ics.py") (lit "exchange.json")
              (lit "exchange.ics")
              {| events_key := Some [standup; standup_no_end] |}
              america_new_york_2026 _ eq_refl Hl) as (Hmain & Hb & _).
  split; [|split].
  - unfold exporter_argv. rewrite Hmain. reflexivity.
  - exact Hl.
  - rewrite Hb. reflexivity.
Defined.

(** ** The agenda *)

Section AgendaFacts.

Import Agenda.

Lemma insert_by_perm {A} (key : A -> Z) x l :
  Permutation (insert_by key x l) (x :: l).
Proof.
  induction l as [|y l IH]; simpl; [reflexivity|].
  destruct (key x <=? key y); [reflexivity|].
  rewrite IH. apply perm_swap.
Qed.

(** Sorting keeps the matches, each as often as it was found. *)
Lemma sort_by_perm {A} (key : A -> Z) l : Permutation (sort_by key l) l.
Proof.
  induction l as [|x l IH]; simpl; [reflexivity|].
  rewrite insert_by_perm. constructor. exact IH.
Qed.

Lemma str_eqb_eq (a b : list N) : str_eqb a b = true <-> a = b.
Proof. unfold str_eqb. apply bool_decide_eq_true. Qed.

Lemma str_eqb_neq (a b : list N) : str_eqb a b = false <-> a <> b.
Proof. unfold str_eqb. apply bool_decide_eq_false. Qed.

Lemma digit_is_digit c d : digit c = Some d -> is_digit c.
Proof.
  unfold digit, is_digit.
  destruct (N.leb_spec 48 c), (N.leb_spec c 57); simpl;
    try discriminate. intros _. lia.
Qed.

Lemma digits_from_digits acc s v :
  digits_from acc s = Some v -> Forall is_digit s.
Proof.
  revert acc. induction s as [|c s IH]; intros acc; simpl; [constructor|].
  destruct (digit c) as [d|] eqn:E; [|discriminate].
  intros H. constructor; [eapply digit_is_digit, E | eapply IH, H].
Qed.

Lemma number_digits s v : number s = Some v -> Forall is_digit s.
Proof. destruct s; [discriminate|]. apply digits_from_digits. Qed.

(** What the strict parser takes has the shape YYYY-MM-DD. *)
Lemma date_fromisoformat_strict_shape s d :
  date_fromisoformat_strict s = Some d ->
  exists y1 y2 y3 y4 m1 m2 d1 d2,
    s = [y1; y2; y3; y4; 45%N; m1; m2; 45%N; d1; d2]
    /\ Forall is_digit [y1; y2; y3; y4; m1; m2; d1; d2].
Proof.
  unfold date_fromisoformat_strict.
  destruct s as [|y1 [|y2 [|y3 [|y4 [|h1 [|m1 [|m2 [|h2 [|d1 [|d2 [|]]]]]]]]]]];
    try discriminate.
  destruct (N.eqb_spec h1 45) as [->|]; [|discriminate].
  destruct (N.eqb_spec h2 45) as [->|]; [|discriminate].
  cbn [andb].
  destruct (number [y1; y2; y3; y4]) as [y|] eqn:Ey; [|discriminate].
  destruct (number [m1; m2]) as [m|] eqn:Em; [|discriminate].
  destruct (number [d1; d2]) as [dd|] eqn:Ed; [|discriminate].
  intros _. exists y1, y2, y3, y4, m1, m2, d1, d2.
  split; [reflexivity|].
  apply number_digits in Ey, Em, Ed.
  inversion Ey as [|? ? Y1 Ey1]; inversion Ey1 as [|? ? Y2 Ey2];
    inversion Ey2 as [|? ? Y3 Ey3]; inversion Ey3 as [|? ? Y4 _];
    inversion Em as [|? ? M1 Em1]; inversion Em1 as [|? ? M2 _];
    inversion Ed as [|? ? D1 Ed1]; inversion Ed1 as [|? ? D2 _].
  repeat (constructor; [assumption|]). constructor.
Qed.

Variable fromisoformat : list N -> result datetime.
Variable date_fromisoformat : list N -> option Z.
Variable LOCAL_TZ system_tz : tzinfo.
Variable clock : Z.

(** C3, as the claim has it, fails: the token TODAY is none of the three
    shapes, and it is taken for today. *)
Lemma uppercase_today_accepted :
  resolve_target_date date_fromisoformat_strict sample_clock
                      (Some (lit "TODAY")) america_new_york_2026
  = Ok (ymd2ord 2026 2 20)
  /\ lit "TODAY" <> lit "today"
  /\ lit "TODAY" <> lit "tomorrow"
  /\ date_fromisoformat_strict (lit "TODAY") = None.
Proof. repeat split; try reflexivity; discriminate. Qed.

(** C3, amended.  The token is compared with "today" and "tomorrow"
    after lower-casing.  Target-date resolution gives the current date in
    the zone for no token and for a token that lower-cases to "today",
    the next day for one that lower-cases to "tomorrow", and for any
    other token what the date parser makes of it; a token the parser
    refuses ends the run with the message and exit status 1.  The strict
    parser takes only strings of the shape YYYY-MM-DD, so not the compact
    20260219. *)
Theorem resolve_target_date_accepts arg tz :
  let today := (clock + offset_at_utc tz clock) / us_per_day + 1 in
  let r := resolve_target_date date_fromisoformat clock arg tz in
  (arg = None -> r = Ok today)
  /\ (forall a, arg = Some a -> lower a = lit "today" -> r = Ok today)
  /\ (forall a, arg = Some a -> lower a = lit "tomorrow" ->
      r = date_add_days today 1)
  /\ (forall a d, arg = Some a ->
      lower a <> lit "today" -> lower a <> lit "tomorrow" ->
      date_fromisoformat a = Some d -> r = Ok d)
  /\ (forall a, arg = Some a ->
      lower a <> lit "today" -> lower a <> lit "tomorrow" ->
      date_fromisoformat a = None ->
      r = Raise (SystemExit 1 bad_date)
      /\ exit_status (SystemExit 1 bad_date) <> 0
      /\ (tz = LOCAL_TZ ->
          forall prog json_path rest input,
            main fromisoformat date_fromisoformat LOCAL_TZ system_tz clock
                 (prog :: json_path :: a :: rest) input
            = Raise (SystemExit 1 bad_date)))
  /\ date_fromisoformat_strict (lit "20260219") = None
  /\ (forall s d, date_fromisoformat_strict s = Some d ->
      exists y1 y2 y3 y4 m1 m2 d1 d2,
        s = [y1; y2; y3; y4; 45%N; m1; m2; 45%N; d1; d2]
        /\ Forall is_digit [y1; y2; y3; y4; m1; m2; d1; d2]).
Proof.
  intros today r. subst r. unfold resolve_target_date. fold today.
  split; [intros ->; reflexivity|].
  split.
  { intros a -> H. apply str_eqb_eq in H. rewrite H. reflexivity. }
  split.
  { intros a -> H.
    assert (Hne : str_eqb (lower a) (lit "today") = false).
    { apply str_eqb_neq. rewrite H. discriminate. }
    apply str_eqb_eq in H. rewrite Hne, H. reflexivity. }
  split.
  { intros a d -> H1 H2 Hd.
    apply str_eqb_neq in H1, H2. rewrite H1, H2, Hd. reflexivity. }
  split.
  { intros a -> H1 H2 Hd.
    apply str_eqb_neq in H1, H2.
    split; [rewrite H1, H2, Hd; reflexivity|].
    split; [discriminate|].
    intros -> prog json_path rest input.
    unfold main, resolve_target_date. cbn [head].
    rewrite H1, H2, Hd. reflexivity. }
  split; [reflexivity|].
  apply date_fromisoformat_strict_shape.
Qed.

(** C9, as the claim has it, fails: the agenda for 18 February 2026
    shows the all-day record with the text "All Day" first and the
    padding after it, not before it. *)
Lemma all_day_column_padded_on_right :
  main datetime_fromisoformat date_fromisoformat_strict
       america_new_york_2026 utc sample_clock
       (agenda_argv "2026-02-18") {| events_key := Some [all_day_feb19] |}
  = Ok [lit "Wednesday, February 18, 2026";
        [];
        lit "All Day            Holiday"]
  /\ lit "All Day            Holiday"
     <> left_padded_spec 18 (lit "All Day") ++ lit "Holiday"
  /\ lit "All Day            Holiday"
     <> left_padded_spec 18 (lit "All Day") ++ lit " Holiday".
Proof. split; [vm_compute; reflexivity | split; discriminate]. Qed.

Lemma agenda_line_shape (m : agenda_match) :
  let time_str := format_time_range (m_start m) (m_end m) (m_all_day m) in
  let column := time_str ++ repeat ch_space (18 - length time_str) in
  agenda_line m = column ++ [ch_space] ++ py_str (m_title m)
  /\ length column = Nat.max 18 (length time_str).
Proof.
  cbv zeta. split; [reflexivity|]. apply (ljust_length 18).
Qed.

(** C9, amended.  When there are matches, the agenda prints the header,
    an empty line, and one line for each match (the matches found, in
    sorted order); the line is the time-range text, then spaces up to a
    width of 18 characters when the text is shorter (the text is
    left-aligned: the padding follows it), then one space, then the
    title. *)
Theorem agenda_lines_left_aligned prog json_path rest input
        target_date bounds found :
  resolve_target_date date_fromisoformat clock (head rest) LOCAL_TZ
  = Ok target_date ->
  day_bounds_utc system_tz target_date LOCAL_TZ = Ok bounds ->
  mapM (match_event fromisoformat LOCAL_TZ system_tz
                    (fst bounds) (snd bounds)) (payload_events input)
  = Ok found ->
  concat found <> [] ->
  exists matches,
    main fromisoformat date_fromisoformat LOCAL_TZ system_tz clock
         (prog :: json_path :: rest) input
    = Ok (strftime_header target_date :: [] :: map agenda_line matches)
    /\ Permutation matches (concat found)
    /\ length (map agenda_line matches) = length (concat found)
    /\ forall m,
         let time_str :=
           format_time_range (m_start m) (m_end m) (m_all_day m) in
         let column := time_str ++ repeat ch_space (18 - length time_str) in
         agenda_line m = column ++ [ch_space] ++ py_str (m_title m)
         /\ length column = Nat.max 18 (length time_str).
Proof.
  intros Hdate Hbounds Hfound Hne.
  exists (sort_by (fun m => wall (m_start m)) (concat found)).
  pose proof (sort_by_perm (fun m => wall (m_start m)) (concat found))
    as Hperm.
  split; [|split; [exact Hperm | split; [|exact agenda_line_shape]]].
  - unfold main. rewrite Hdate. cbn [bind]. rewrite Hbounds. cbn [bind].
    unfold sorted_matches. rewrite Hfound. cbn [bind].
    destruct (sort_by _ (concat found)) as [|m ms] eqn:E.
    + apply Permutation_nil in Hperm. contradiction.
    + reflexivity.
  - rewrite length_map. apply Permutation_length, Hperm.
Qed.

End AgendaFacts.

Lemma resolve_target_date_accepts_witness :
  Agenda.resolve_target_date date_fromisoformat_strict sample_clock
                             (Some (lit "Tomorrow")) america_new_york_2026
  = Ok (ymd2ord 2026 2 21)
  /\ Agenda.main datetime_fromisoformat date_fromisoformat_strict
                 america_new_york_2026 utc sample_clock
                 (agenda_argv "20260219") {| events_key := None |}
     = Raise (SystemExit 1 Agenda.bad_date).
Proof.
  pose proof (resolve_target_date_accepts datetime_fromisoformat
                date_fromisoformat_strict america_new_york_2026 utc
                sample_clock) as H.
  split.
  - destruct (H (Some (lit "Tomorrow")) america_new_york_2026)
      as (_ & _ & Htomorrow & _).
    rewrite (Htomorrow (lit "Tomorrow") eq_refl eq_refl). reflexivity.
  - destruct (H (Some (lit "20260219")) america_new_york_2026)
      as (_ & _ & _ & _ & Hbad & _).
    destruct (Hbad (lit "20260219") eq_refl) as (_ & _ & Hmain).
    + discriminate.
    + discriminate.
    + reflexivity.
    + apply (Hmain eq_refl).
Defined.

Lemma agenda_lines_left_aligned_witness :
  exists matches,
    Agenda.main datetime_fromisoformat date_fromisoformat_strict
                america_new_york_2026 utc sample_clock
                (agenda_argv "2026-02-19")
                {| events_key := Some [standup; standup_no_end] |}
    = Ok (strftime_header (ymd2ord 2026 2 19)
          :: [] :: map Agenda.agenda_line matches)
    /\ length (map Agenda.agenda_line matches) = 1%nat.
Proof.
  destruct (agenda_lines_left_aligned datetime_fromisoformat
              date_fromisoformat_strict america_new_york_2026 utc
              sample_clock (lit "Query-JSON.py") (lit "exchange.json")
              [lit "2026-02-19"]
              {| events_key := Some [standup; standup_no_end] |}
              (ymd2ord 2026 2 19)
              ({| wall := reading 2026 2 19 5 0; dt_tzinfo := Some utc |},
               {| wall := reading 2026 2 20 5 0; dt_tzinfo := Some utc |})
              [[{| Agenda.m_title := JStr (lit "Standup");
                   Agenda.m_start :=
                     {| wall := reading 2026 2 19 9 0;
                        dt_tzinfo := Some america_new_york_2026 |};
                   Agenda.m_end :=
                     {| wall := reading 2026 2 19 9 15;
                        dt_tzinfo := Some america_new_york_2026 |};
                   Agenda.m_all_day := JBool false |}]; []])
    as (matches & Hmain & _ & Hlen & _).
  - reflexivity.
  - reflexivity.
  - reflexivity.
  - discriminate.
  - exists matches. split; [exact Hmain | exact Hlen].
Defined.

(** * Further properties of the code *)

(** ** Escaping, continued *)

Section EscapeMore.

Lemma escape_as_flat_map (s : list N) :
  escape_ics_text s = flat_map escape_char_spec s.
Proof.
  induction s as [|c s IH]; [reflexivity|].
  change (c :: s) with ([c] ++ s).
  rewrite escape_app, escape_one, IH. reflexivity.
Qed.

(** The escape of one character: the character itself when it is not
    special, else a backslash and a letter that tells which it was. *)
Lemma escape_char_cases c :
  (is_special c = false /\ escape_char_spec c = [c] /\ c <> 92%N)
  \/ (is_special c = true
      /\ exists x, escape_char_spec c = [92%N; x]
                   /\ (c = 92%N /\ x = 92%N \/ c = 10%N /\ x = 110%N
                       \/ c = 59%N /\ x = 59%N \/ c = 44%N /\ x = 44%N)).
Proof.
  unfold escape_char_spec, is_special, ch_backslash, ch_n, ch_semicolon,
    ch_comma.
  destruct (N.eqb_spec c 92) as [->|H1]; [right; split; eauto 10|].
  destruct (N.eqb_spec c 10) as [->|H2]; [right; split; eauto 10|].
  destruct (N.eqb_spec c 59) as [->|H3]; [right; split; eauto 10|].
  destruct (N.eqb_spec c 44) as [->|H4]; [right; split; eauto 10|].
  left. auto.
Qed.

(** X1.  Escaping loses nothing: two texts with the same escaped form are
    the same text. *)
Theorem escape_ics_text_injective (s t : list N) :
  escape_ics_text s = escape_ics_text t -> s = t.
Proof.
  rewrite !escape_as_flat_map. revert t.
  induction s as [|c s IH]; intros [|d t]; simpl; intros H.
  - reflexivity.
  - destruct (escape_char_cases d) as [(_ & E & _) | (_ & x & E & _)];
      rewrite E in H; discriminate.
  - destruct (escape_char_cases c) as [(_ & E & _) | (_ & x & E & _)];
      rewrite E in H; discriminate.
  - destruct (escape_char_cases c) as [(_ & Ec & Nc) | (_ & x & Ec & Hc)];
      destruct (escape_char_cases d) as [(_ & Ed & Nd) | (_ & y & Ed & Hd)];
      rewrite Ec, Ed in H; simpl in H.
    + injection H as -> H. f_equal. apply IH, H.
    + injection H as -> _. congruence.
    + injection H as <- _. congruence.
    + injection H as -> H.
      assert (c = d) as -> by lia. f_equal. apply IH, H.
Qed.

Lemma escape_ics_text_injective_witness :
  escape_ics_text (lit "a,b") = escape_ics_text (lit "a,b")
  /\ lit "a,b" = lit "a,b".
Proof.
  split; [reflexivity|].
  apply (escape_ics_text_injective (lit "a,b") (lit "a,b")). reflexivity.
Defined.

Lemma escape_no_lf (s : list N) :
  Forall (fun c => c <> 10%N) (escape_ics_text s).
Proof.
  rewrite escape_as_flat_map.
  induction s as [|c s IH]; simpl; [constructor|].
  apply Forall_app. split; [|exact IH].
  destruct (escape_char_cases c) as [(Hs & E & _) | (_ & x & E & Hx)];
    rewrite E.
  - constructor; [|constructor].
    intros ->. discriminate Hs.
  - constructor; [discriminate|]. constructor; [lia|constructor].
Qed.

(** X2.  The escaped text holds no newline character, whatever the
    input: a field cannot break its line. *)
Theorem escape_ics_text_no_newline (s : list N) :
  Forall (fun c => c <> ch_newline) (escape_ics_text s).
Proof. apply escape_no_lf. Qed.

(** X3.  Escaping leaves a text as it is exactly when the text has no
    backslash, newline, semicolon or comma. *)
Theorem escape_ics_text_fixed_iff (s : list N) :
  escape_ics_text s = s <-> List.filter is_special s = [].
Proof.
  rewrite escape_as_flat_map. split.
  - intros H. apply (f_equal (@length N)) in H.
    assert (L : forall u : list N,
               length (flat_map escape_char_spec u)
               = (length u + length (List.filter is_special u))%nat).
    { induction u as [|c u IHu]; [reflexivity|].
      simpl flat_map. rewrite length_app, IHu, escape_char_length.
      simpl List.filter. destruct (is_special c); simpl; lia. }
    rewrite L in H.
    destruct (List.filter is_special s); [reflexivity | simpl in H; lia].
  - induction s as [|c s IH]; [reflexivity|].
    simpl. destruct (is_special c) eqn:Hc; [discriminate|].
    intros H. rewrite (IH H).
    destruct (escape_char_cases c) as [(_ & E & _) | (Hs & _)];
      [rewrite E; reflexivity | congruence].
Qed.

End EscapeMore.

(** ** Folding, continued *)

Section FoldMore.

Lemma join_cons_cons (sep p q : list N) rest :
  join sep (p :: q :: rest) = p ++ sep ++ join sep (q :: rest).
Proof. reflexivity. Qed.

(** Length of the joined segments of a folded line. *)
Lemma join_segments_length (first : list N) chunks :
  length (join crlf (first :: map (cons ch_space) chunks))
  = (length first + length (concat chunks) + 3 * length chunks)%nat.
Proof.
  revert first. induction chunks as [|c chunks IH]; intros first.
  - simpl. lia.
  - cbn [map]. rewrite join_cons_cons, !length_app, IH.
    cbn [concat length crlf]. rewrite length_app. simpl. lia.
Qed.

Lemma div_step (n l : nat) :
  (1 <= l)%nat -> (l < n)%nat ->
  S ((n - l + (l - 1)) / l) = ((n + (l - 1)) / l)%nat.
Proof.
  intros Hl Hn.
  replace (n + (l - 1))%nat with ((n - l + (l - 1)) + 1 * l)%nat by lia.
  rewrite Nat.div_add by lia. lia.
Qed.

(** The loop again, now counting the chunks it cuts. *)
Lemma fold_while_count fuel limit (rest : list N) out :
  (2 <= limit)%nat -> rest <> [] ->
  (length rest <= fuel + (limit - 1))%nat ->
  exists chunks,
    fold_while fuel limit (ch_space :: rest) out
    = Ok (out ++ map (cons ch_space) chunks)
    /\ concat chunks = rest
    /\ length chunks = ((length rest + (limit - 2)) / (limit - 1))%nat.
Proof.
  intros Hlimit. revert rest out.
  assert (Last : forall (rest : list N) out, rest <> [] ->
            (length rest <= limit - 1)%nat ->
            exists chunks,
              Ok (out ++ [ch_space :: rest])
              = Ok (out ++ map (cons ch_space) chunks)
              /\ concat chunks = rest
              /\ length chunks
                 = ((length rest + (limit - 2)) / (limit - 1))%nat).
  { intros rest out Hne Hlen. exists [rest]. simpl.
    rewrite app_nil_r. repeat split.
    assert (1 <= length rest)%nat
      by (destruct rest; [congruence | simpl; lia]).
    apply Nat.div_unique with (r := (length rest - 1)%nat); lia. }
  induction fuel as [|fuel IH]; intros rest out Hne Hlen.
  - simpl. destruct (Nat.ltb_spec limit (S (length rest))) as [H|H].
    + lia.
    + apply Last; [assumption | lia].
  - simpl. destruct (Nat.ltb_spec limit (S (length rest))) as [H|H].
    + destruct limit as [|l]; [lia|].
      simpl take. simpl drop.
      destruct (IH (drop l rest) (out ++ [ch_space :: take l rest]))
        as (chunks & E & Hcat & Hcount).
      * intros D. apply (f_equal length) in D.
        rewrite length_drop in D. simpl in D. lia.
      * rewrite length_drop. lia.
      * exists (take l rest :: chunks). rewrite E. simpl.
        rewrite <- app_assoc. simpl.
        repeat split.
        -- rewrite Hcat. apply take_drop.
        -- rewrite Hcount, length_drop.
           replace (S l - 1)%nat with l by lia.
           replace (S l - 2)%nat with (l - 1)%nat by lia.
           replace (l - 0)%nat with l by lia.
           apply div_step; lia.
    + apply Last; [assumption | lia].
Qed.

(** X4.  For any limit of at least two and any fuel of at least the
    line's length, a line longer than the limit folds into its first
    [limit] characters and (len - 2) / (limit - 1) continuation segments,
    and the folded text is longer than the line by three characters (CR,
    LF, space) for each of them. *)
Theorem fold_ics_line_fuel_count fuel (line : list N) limit :
  (2 <= limit)%nat -> (length line <= fuel)%nat ->
  (limit < length line)%nat ->
  exists chunks,
    fold_ics_line_fuel fuel line limit
    = Ok (join crlf (take limit line :: map (cons ch_space) chunks))
    /\ take limit line ++ concat chunks = line
    /\ length chunks = ((length line - 2) / (limit - 1))%nat
    /\ length (join crlf (take limit line :: map (cons ch_space) chunks))
       = (length line + 3 * ((length line - 2) / (limit - 1)))%nat.
Proof.
  intros Hlimit Hfuel Hlong. unfold fold_ics_line_fuel.
  destruct (Nat.leb_spec (length line) limit) as [H|_]; [lia|].
  destruct fuel as [|fuel]; [lia|]. cbn [fold_while app].
  destruct (Nat.ltb_spec limit (length line)) as [_|H]; [|lia].
  destruct (fold_while_count fuel limit (drop limit line) [take limit line])
    as (chunks & E & Hcat & Hcount); try assumption.
  - intros D. apply (f_equal length) in D.
    rewrite length_drop in D. simpl in D. lia.
  - rewrite length_drop. lia.
  - assert (Hc : length chunks = ((length line - 2) / (limit - 1))%nat).
    { rewrite Hcount, length_drop. f_equal. lia. }
    exists chunks. rewrite E. cbn [bind app].
    split; [reflexivity|].
    split; [rewrite Hcat; apply take_drop|].
    split; [exact Hc|].
    rewrite join_segments_length, Hcat, Hc, length_take, length_drop. lia.
Qed.

Lemma fold_ics_line_fuel_count_witness :
  exists chunks,
    fold_ics_line_fuel 200 (repeat 65%N 200) 75
    = Ok (join crlf (take 75 (repeat 65%N 200)
                     :: map (cons ch_space) chunks))
    /\ length chunks = 2%nat.
Proof.
  destruct (fold_ics_line_fuel_count 200 (repeat 65%N 200) 75)
    as (chunks & E & _ & Hc & _).
  - lia.
  - rewrite repeat_length. lia.
  - rewrite repeat_length. lia.
  - exists chunks. split; [exact E|].
    rewrite Hc, repeat_length. reflexivity.
Defined.

(** With a limit below two the loop makes no progress: the line it
    carries on with is never shorter than the one it had. *)
Lemma fold_while_stuck fuel limit (line : list N) out :
  (limit <= 1)%nat -> (limit < length line)%nat ->
  fold_while fuel limit line out = Raise NoReturn.
Proof.
  intros Hlimit. revert line out.
  induction fuel as [|fuel IH]; intros line out Hlong; simpl;
    destruct (Nat.ltb_spec limit (length line)) as [_|H]; try lia;
    [reflexivity|].
  apply IH. simpl. rewrite length_drop. lia.
Qed.

(** X5.  Called with a limit of 0 or 1 on a line longer than the limit,
    [fold_ics_line] never returns: whatever the fuel, the loop is still
    running when it is used up. *)
Theorem fold_ics_line_small_limit_loops fuel (line : list N) limit :
  (limit <= 1)%nat -> (limit < length line)%nat ->
  fold_ics_line_fuel fuel line limit = Raise NoReturn.
Proof.
  intros Hlimit Hlong. unfold fold_ics_line_fuel.
  destruct (Nat.leb_spec (length line) limit) as [H|_]; [lia|].
  rewrite fold_while_stuck by assumption. reflexivity.
Qed.

Lemma fold_ics_line_small_limit_loops_witness :
  fold_ics_line_fuel 1000 (lit "ab") 1 = Raise NoReturn.
Proof.
  apply (fold_ics_line_small_limit_loops 1000 (lit "ab") 1).
  - lia.
  - simpl. lia.
Defined.

End FoldMore.

(** ** Loops that stop at an exception *)

Lemma mapM_raise {A B} (f : A -> result B) pre e post bs err :
  mapM f pre = Ok bs -> f e = Raise err ->
  mapM f (pre ++ e :: post) = Raise err.
Proof.
  revert bs. induction pre as [|a pre IH]; intros bs Hpre He; simpl in *.
  - rewrite He. reflexivity.
  - destruct (f a) as [b|]; [|discriminate]. cbn [bind] in *.
    destruct (mapM f pre) as [bs'|]; [|discriminate].
    rewrite (IH bs' eq_refl He). reflexivity.
Qed.

(** ** The agenda, continued *)

Section SortMore.

Import Agenda.

Context {A : Type} (key : A -> Z).

Lemma insert_by_sorted x l :
  Sorted (fun a b => key a <= key b) l ->
  Sorted (fun a b => key a <= key b) (insert_by key x l).
Proof.
  induction 1 as [|y l Hl IH Hy]; simpl.
  - repeat constructor.
  - destruct (Z.leb_spec (key x) (key y)) as [H|H].
    + repeat constructor; assumption.
    + constructor; [exact IH|].
      destruct l as [|z l]; simpl.
      * constructor. lia.
      * destruct (Z.leb_spec (key x) (key z)); constructor; [lia|].
        inversion Hy; assumption.
Qed.

Lemma insert_by_filter_same x l :
  List.filter (fun a => key a =? key x) (insert_by key x l)
  = x :: List.filter (fun a => key a =? key x) l.
Proof.
  induction l as [|y l IH]; simpl.
  - rewrite Z.eqb_refl. reflexivity.
  - destruct (Z.leb_spec (key x) (key y)) as [H|H]; simpl.
    + rewrite Z.eqb_refl. reflexivity.
    + destruct (Z.eqb_spec (key y) (key x)); [lia | exact IH].
Qed.

Lemma insert_by_filter_other k x l :
  key x <> k ->
  List.filter (fun a => key a =? k) (insert_by key x l)
  = List.filter (fun a => key a =? k) l.
Proof.
  intros Hk. induction l as [|y l IH]; simpl.
  - destruct (Z.eqb_spec (key x) k); [contradiction | reflexivity].
  - destruct (Z.leb_spec (key x) (key y)) as [H|H]; simpl.
    + destruct (Z.eqb_spec (key x) k); [contradiction | reflexivity].
    + rewrite IH. reflexivity.
Qed.

(** X6.  The sort of the matches puts them in ascending order of the key
    and is stable: matches with the same key keep the order they were
    found in. *)
Theorem sort_by_sorted_stable (l : list A) :
  StronglySorted (fun a b => key a <= key b) (sort_by key l)
  /\ forall k,
       List.filter (fun a => key a =? k) (sort_by key l)
       = List.filter (fun a => key a =? k) l.
Proof.
  split.
  - apply Sorted_StronglySorted.
    + intros a b c Hab Hbc. lia.
    + induction l as [|x l IH]; simpl; [constructor|].
      apply insert_by_sorted, IH.
  - intros k. induction l as [|x l IH]; simpl; [reflexivity|].
    destruct (Z.eqb_spec (key x) k) as [<-|Hk].
    + rewrite insert_by_filter_same, IH. reflexivity.
    + rewrite insert_by_filter_other by exact Hk. exact IH.
Qed.

End SortMore.

Section ColumnMore.

Import Agenda.

Lemma dec_length_digits (n : Z) :
  0 <= n < 100 ->
  length (dec (Z.to_N n)) = if n <? 10 then 1%nat else 2%nat.
Proof.
  intros H.
  assert (All : forallb
                  (fun k => (length (dec (N.of_nat k))
                             =? if (k <? 10)%nat then 1 else 2)%nat)
                  (seq 0 100) = true) by (vm_compute; reflexivity).
  rewrite forallb_forall in All.
  specialize (All (Z.to_nat n)). rewrite Z_nat_N in All.
  rewrite (proj1 (Nat.eqb_eq _ _) (All ltac:(apply in_seq; lia))).
  destruct (Z.ltb_spec n 10), (Nat.ltb_spec (Z.to_nat n) 10);
    try reflexivity; lia.
Qed.

Lemma time_of_day_ranges dt :
  0 <= hour_of dt < 24 /\ 0 <= minute_of dt < 60 /\ 0 <= second_of dt < 60.
Proof.
  unfold hour_of, minute_of, second_of, us_per_day, us_per_second.
  repeat split; Z.div_mod_to_equations; lia.
Qed.

Lemma fmt_02_length n : 0 <= n < 100 -> length (fmt_02 n) = 2%nat.
Proof.
  intros H. unfold fmt_02. rewrite zfill_length.
  pose proof (dec_length_2 n H). lia.
Qed.

(** The hour on the twelve-hour clock, as [%-I] prints it. *)
Lemma strftime_IMp_length dt :
  let h := hour_of dt in
  let h12 := if h mod 12 =? 0 then 12 else h mod 12 in
  length (strftime_IMp dt) = if h12 <? 10 then 7%nat else 8%nat.
Proof.
  cbv zeta. unfold strftime_IMp.
  destruct (time_of_day_ranges dt) as (Hh & Hm & _).
  set (h12 := if hour_of dt mod 12 =? 0 then 12 else hour_of dt mod 12).
  assert (H12 : 1 <= h12 <= 12).
  { unfold h12. destruct (Z.eqb_spec (hour_of dt mod 12) 0); [lia|].
    pose proof (Z.mod_pos_bound (hour_of dt) 12). lia. }
  rewrite !length_app, fmt_02_length by lia.
  rewrite dec_length_digits by lia.
  replace (length (if hour_of dt <? 12 then lit "AM" else lit "PM"))
    with 2%nat by (destruct (hour_of dt <? 12); reflexivity).
  destruct (h12 <? 10); reflexivity.
Qed.

(** X7.  The time-range text is "All Day" for an all-day match and
    otherwise has 17, 18 or 19 characters, one more for each of the two
    hours that has two digits; so in the printed line the title starts in
    column 20 (after 19 characters), or in column 21 when both hours have
    two digits. *)
Theorem format_time_range_width (start_local end_local : datetime)
        (all_day : json) :
  let h12 dt :=
    if hour_of dt mod 12 =? 0 then 12 else hour_of dt mod 12 in
  let digits dt := if h12 dt <? 10 then 1%nat else 2%nat in
  let time_str := format_time_range start_local end_local all_day in
  length time_str
  = (if truthy all_day then 7
     else 15 + digits start_local + digits end_local)%nat
  /\ length (ljust 18 time_str ++ [ch_space])
     = if negb (truthy all_day)
          && negb (h12 start_local <? 10) && negb (h12 end_local <? 10)
       then 20%nat else 19%nat.
Proof.
  cbv zeta. unfold format_time_range.
  rewrite length_app, ljust_length.
  destruct (truthy all_day); [split; reflexivity|].
  rewrite !length_app, !strftime_IMp_length. cbn [length negb andb].
  destruct (_ <? 10), (_ <? 10); split; reflexivity.
Qed.

End ColumnMore.

Section AgendaMore.

Import Agenda.

Variable fromisoformat : list N -> result datetime.
Variable date_fromisoformat : list N -> option Z.
Variable LOCAL_TZ system_tz : tzinfo.
Variable clock : Z.

(** X8.  The day window of a date runs from local midnight to the next
    local midnight, each taken to UTC with the offset the zone gives that
    wall-clock reading; so it is 24 hours long less the change of offset
    between the two midnights (23 or 25 hours across a daylight-saving
    change), and both ends are UTC datetimes. *)
Theorem day_bounds_utc_window target_date tz a b :
  day_bounds_utc system_tz target_date tz = Ok (a, b) ->
  let midnight := (target_date - 1) * us_per_day in
  wall a = midnight - utcoffset tz midnight
  /\ wall b = midnight + us_per_day - utcoffset tz (midnight + us_per_day)
  /\ wall b - wall a
     = us_per_day
       - (utcoffset tz (midnight + us_per_day) - utcoffset tz midnight)
  /\ in_range (wall a) = true /\ in_range (wall b) = true
  /\ dt_tzinfo a = Some utc /\ dt_tzinfo b = Some utc.
Proof.
  unfold day_bounds_utc, astimezone. cbn [wall dt_tzinfo default bind
    from_option id utc fixed_zone offset_at_utc].
  set (midnight := (target_date - 1) * us_per_day).
  destruct (in_range (midnight + us_per_day)); [|discriminate].
  cbn [bind wall dt_tzinfo default from_option id].
  rewrite !Z.add_0_r.
  destruct (in_range (midnight - _)) eqn:Ha; [|discriminate].
  cbn [bind].
  destruct (in_range (midnight + us_per_day - _)) eqn:Hb; [|discriminate].
  cbn [bind]. intros [= <- <-]. cbn [wall dt_tzinfo].
  repeat split; try assumption. lia.
Qed.

(** X9.  A record with both keys, whose two timestamps parse, is listed
    exactly when its interval overlaps the day window: it is left out,
    without being converted to the local zone, when it does not start
    before the window's end or does not end after the window's start;
    otherwise it contributes one match, with its times in the local zone,
    its title (or "(No Title)" if that is missing, null or empty) and its
    all-day flag. *)
Theorem match_event_lists_overlapping
        day_start_utc day_end_utc (e : gmap string json)
        start_raw end_raw start_utc end_utc :
  e !! "start" = Some start_raw ->
  e !! "end" = Some end_raw ->
  parse_iso8601_z fromisoformat system_tz start_raw = Ok start_utc ->
  parse_iso8601_z fromisoformat system_tz end_raw = Ok end_utc ->
  ((wall day_end_utc <= wall start_utc
    \/ wall end_utc <= wall day_start_utc) ->
   match_event fromisoformat LOCAL_TZ system_tz
               day_start_utc day_end_utc e = Ok [])
  /\ (wall start_utc < wall day_end_utc ->
      wall day_start_utc < wall end_utc ->
      forall start_local end_local,
        astimezone system_tz LOCAL_TZ start_utc = Ok start_local ->
        astimezone system_tz LOCAL_TZ end_utc = Ok end_local ->
        match_event fromisoformat LOCAL_TZ system_tz
                    day_start_utc day_end_utc e
        = Ok [{| m_title :=
                   (if truthy (get e "title") then get e "title"
                    else JStr (lit "(No Title)"));
                 m_start := start_local;
                 m_end := end_local;
                 m_all_day := default (JBool false) (e !! "allDay") |}]).
Proof.
  intros Hs He Hps Hpe. unfold match_event.
  rewrite Hs, He, Hps. cbn [bind]. rewrite Hpe. cbn [bind].
  split.
  - intros Hout.
    assert (Overlap.overlaps (wall start_utc) (wall end_utc)
              (wall day_start_utc) (wall day_end_utc) = false) as ->.
    { apply not_true_is_false. rewrite overlaps_iff. lia. }
    reflexivity.
  - intros H1 H2 start_local end_local Hsl Hel.
    assert (Overlap.overlaps (wall start_utc) (wall end_utc)
              (wall day_start_utc) (wall day_end_utc) = true) as ->.
    { rewrite overlaps_iff. lia. }
    rewrite Hsl. cbn [bind]. rewrite Hel. reflexivity.
Qed.

(** X10.  When no record matches (and so for an empty or absent events
    array), the agenda prints the header, an empty line and "No events.",
    and nothing else. *)
Theorem main_no_events prog json_path rest input
        target_date bounds found :
  resolve_target_date date_fromisoformat clock (head rest) LOCAL_TZ
  = Ok target_date ->
  day_bounds_utc system_tz target_date LOCAL_TZ = Ok bounds ->
  mapM (match_event fromisoformat LOCAL_TZ system_tz
                    (fst bounds) (snd bounds)) (payload_events input)
  = Ok found ->
  concat found = [] ->
  main fromisoformat date_fromisoformat LOCAL_TZ system_tz clock
       (prog :: json_path :: rest) input
  = Ok [strftime_header target_date; []; lit "No events."].
Proof.
  intros Hdate Hbounds Hfound Hnone. unfold main.
  rewrite Hdate. cbn [bind]. rewrite Hbounds. cbn [bind].
  unfold sorted_matches. rewrite Hfound. cbn [bind].
  rewrite Hnone. reflexivity.
Qed.

(** X11.  A malformed record stops the agenda: when the records before
    it are fine and the loop body raises on it, the run ends with that
    exception and prints nothing, not even the header. *)
Theorem main_stops_at_bad_record prog json_path rest pre e post
        target_date bounds found err :
  resolve_target_date date_fromisoformat clock (head rest) LOCAL_TZ
  = Ok target_date ->
  day_bounds_utc system_tz target_date LOCAL_TZ = Ok bounds ->
  mapM (match_event fromisoformat LOCAL_TZ system_tz
                    (fst bounds) (snd bounds)) pre = Ok found ->
  match_event fromisoformat LOCAL_TZ system_tz
              (fst bounds) (snd bounds) e = Raise err ->
  main fromisoformat date_fromisoformat LOCAL_TZ system_tz clock
       (prog :: json_path :: rest)
       {| events_key := Some (pre ++ e :: post) |}
  = Raise err.
Proof.
  intros Hdate Hbounds Hpre He. unfold main.
  rewrite Hdate. cbn [bind]. rewrite Hbounds.
  cbn [bind payload_events events_key default from_option id].
  unfold sorted_matches.
  rewrite (mapM_raise _ pre e post found err Hpre He). reflexivity.
Qed.

End AgendaMore.

Lemma day_bounds_utc_window_witness :
  exists a b,
    Agenda.day_bounds_utc utc (ymd2ord 2026 3 8) america_new_york_2026
    = Ok (a, b)
    /\ wall b - wall a = 23 * 3600 * us_per_second.
Proof.
  eexists _, _.
  assert (E : Agenda.day_bounds_utc utc (ymd2ord 2026 3 8) america_new_york_2026
              = Ok ({| wall := reading 2026 3 8 5 0;
                       dt_tzinfo := Some utc |},
                    {| wall := reading 2026 3 9 4 0;
                       dt_tzinfo := Some utc |})) by reflexivity.
  split; [exact E|].
  destruct (day_bounds_utc_window utc _ _ _ _ E) as (_ & _ & Hlen & _).
  rewrite Hlen. reflexivity.
Defined.

Lemma match_event_lists_overlapping_witness :
  Agenda.match_event datetime_fromisoformat america_new_york_2026 utc
    {| wall := reading 2026 2 19 5 0; dt_tzinfo := Some utc |}
    {| wall := reading 2026 2 20 5 0; dt_tzinfo := Some utc |}
    standup
  = Ok [{| Agenda.m_title := JStr (lit "Standup");
           Agenda.m_start :=
             {| wall := reading 2026 2 19 9 0;
                dt_tzinfo := Some america_new_york_2026 |};
           Agenda.m_end :=
             {| wall := reading 2026 2 19 9 15;
                dt_tzinfo := Some america_new_york_2026 |};
           Agenda.m_all_day := JBool false |}].
Proof.
  refine (proj2 (match_event_lists_overlapping
                   datetime_fromisoformat america_new_york_2026 utc
                   {| wall := reading 2026 2 19 5 0;
                      dt_tzinfo := Some utc |}
                   {| wall := reading 2026 2 20 5 0;
                      dt_tzinfo := Some utc |}
                   standup
                   (JStr (lit "2026-02-19T14:00:00.000Z"))
                   (JStr (lit "2026-02-19T14:15:00.000Z"))
                   {| wall := reading 2026 2 19 14 0;
                      dt_tzinfo := Some utc |}
                   {| wall := reading 2026 2 19 14 15;
                      dt_tzinfo := Some utc |}
                   _ _ _ _) _ _ _ _ _ _); reflexivity.
Defined.

Lemma main_no_events_witness :
  Agenda.main datetime_fromisoformat date_fromisoformat_strict
              america_new_york_2026 utc sample_clock
              (agenda_argv "2026-02-19") {| events_key := None |}
  = Ok [strftime_header (ymd2ord 2026 2 19); []; lit "No events."].
Proof.
  apply (main_no_events datetime_fromisoformat date_fromisoformat_strict
           america_new_york_2026 utc sample_clock
           (lit "Query-JSON.py") (lit "exchange.json") [lit "2026-02-19"]
           {| events_key := None |} (ymd2ord 2026 2 19)
           ({| wall := reading 2026 2 19 5 0; dt_tzinfo := Some utc |},
            {| wall := reading 2026 2 20 5 0; dt_tzinfo := Some utc |})
           []); reflexivity.
Defined.

Lemma main_stops_at_bad_record_witness :
  Agenda.main datetime_fromisoformat date_fromisoformat_strict
              america_new_york_2026 utc sample_clock
              (agenda_argv "2026-02-19")
              {| events_key :=
                   Some ([standup]
                         ++ <["start" := JStr (lit "soon")]> standup
                         :: [standup]) |}
  = Raise ValueError.
Proof.
  apply (main_stops_at_bad_record datetime_fromisoformat
           date_fromisoformat_strict america_new_york_2026 utc
           sample_clock (lit "Query-JSON.py") (lit "exchange.json")
           [lit "2026-02-19"] [standup]
           (<["start" := JStr (lit "soon")]> standup) [standup]
           (ymd2ord 2026 2 19)
           ({| wall := reading 2026 2 19 5 0; dt_tzinfo := Some utc |},
            {| wall := reading 2026 2 20 5 0; dt_tzinfo := Some utc |})
           [[{| Agenda.m_title := JStr (lit "Standup");
                Agenda.m_start :=
                  {| wall := reading 2026 2 19 9 0;
                     dt_tzinfo := Some america_new_york_2026 |};
                Agenda.m_end :=
                  {| wall := reading 2026 2 19 9 15;
                     dt_tzinfo := Some america_new_york_2026 |};
                Agenda.m_all_day := JBool false |}]]
           ValueError); reflexivity.
Defined.

(** ** The exporter, continued *)

Section ExporterMore.

Import Exporter.

Variable fromisoformat : list N -> result datetime.
Variable hash : list N * json * json -> Z.
Variable ZoneInfo : string -> result tzinfo.
Variable environ_TZ : option string.
Variable LOCAL_TZ system_tz : tzinfo.
Variable clock : Z.

(** X12.  The two tools treat a start that is present but null (or
    false, or 0) differently: the exporter skips the record like one
    without the key, the agenda ends with AttributeError when the record
    also has an end. *)
Theorem null_start_skipped_or_fatal (e : gmap string json) v w :
  e !! "start" = Some v ->
  truthy v = false ->
  (forall s, v <> JStr s) ->
  e !! "end" = Some w ->
  text_field (get e "title") = true ->
  text_field (get e "id") = true ->
  (forall tz, export_event fromisoformat hash clock tz e = Ok [])
  /\ (forall day_start_utc day_end_utc,
        Agenda.match_event fromisoformat LOCAL_TZ system_tz
                           day_start_utc day_end_utc e
        = Raise AttributeError).
Proof.
  intros Hs Hv Hns He Htitle Hid. split.
  - intros tz.
    destruct (stripped_text _ Htitle) as (t & Et).
    destruct (stripped_text _ Hid) as (i & Ei).
    unfold export_event, event_title, event_uid.
    rewrite Et. cbn [bind]. rewrite Ei. cbn [bind].
    assert (Hg : truthy (get e "start") = false)
      by (unfold get; rewrite Hs; exact Hv).
    rewrite Hg. reflexivity.
  - intros ds de. unfold Agenda.match_event. rewrite Hs, He.
    destruct v; try reflexivity. exfalso. eapply Hns. reflexivity.
Qed.

Lemma export_event_bad_start tz (e : gmap string json) err :
  text_field (get e "title") = true ->
  text_field (get e "id") = true ->
  truthy (get e "start") = true ->
  truthy (get e "end") = true ->
  parse_iso8601 fromisoformat (get e "start") = Raise err ->
  export_event fromisoformat hash clock tz e = Raise err.
Proof.
  intros Htitle Hid Hs He Hp.
  destruct (stripped_text _ Htitle) as (t & Et).
  destruct (stripped_text _ Hid) as (i & Ei).
  unfold export_event, event_title, event_uid.
  rewrite Et. cbn [bind]. rewrite Ei. cbn [bind].
  rewrite Hs, He. cbn [negb orb]. rewrite Hp. reflexivity.
Qed.

(** X13.  A start that is present but does not parse is fatal for the
    whole export: with the records before it fine, the run ends with the
    parser's exception and writes no file, whatever follows the record. *)
Theorem main_fails_on_bad_start prog in_path out_path tz
        pre (e : gmap string json) post blocks err :
  ZoneInfo (default "America/New_York"%string environ_TZ) = Ok tz ->
  mapM (export_event fromisoformat hash clock tz) pre = Ok blocks ->
  text_field (get e "title") = true ->
  text_field (get e "id") = true ->
  truthy (get e "start") = true ->
  truthy (get e "end") = true ->
  parse_iso8601 fromisoformat (get e "start") = Raise err ->
  main fromisoformat hash ZoneInfo environ_TZ clock
       [prog; in_path; out_path]
       {| events_key := Some (pre ++ e :: post) |}
  = Raise err.
Proof.
  intros Hz Hpre Htitle Hid Hs He Hp. unfold main.
  rewrite Hz. cbn [bind payload_events events_key default from_option id].
  unfold calendar_lines.
  rewrite (mapM_raise _ pre e post blocks err Hpre
             (export_event_bad_start tz e err Htitle Hid Hs He Hp)).
  reflexivity.
Qed.

Lemma strftime_YmdTHMSZ_length dt :
  in_range (wall dt) = true -> reading 1000 1 1 0 0 <= wall dt ->
  length (strftime_YmdTHMSZ dt) = 16%nat.
Proof.
  intros H Hy. unfold strftime_YmdTHMSZ.
  destruct (time_of_day_ranges dt) as (Hh & Hm & Hsec).
  pose proof (date_of_in_range dt H) as Hd.
  assert (Hd' : year_1000 <= date_of dt).
  { revert Hy. unfold date_of.
    change (reading 1000 1 1 0 0) with ((year_1000 - 1) * us_per_day).
    change year_1000 with 364878. change us_per_day with 86400000000.
    intros Hy. Z.div_mod_to_equations. lia. }
  rewrite !length_app, strftime_Ymd_length by lia.
  rewrite !fmt_02_length by lia. reflexivity.
Qed.

(** X14.  On an aware datetime, [to_utc_z] renders the instant, not the
    wall-clock reading: when it returns, the instant is within Python's
    range, every aware datetime that denotes the same instant, in
    whatever zone, gets the same text, and the text has 16 characters
    when the instant is in the year 1000 or later. *)
Theorem to_utc_z_renders_instant dt instant text :
  utc_instant dt = Some instant ->
  to_utc_z dt = Ok text ->
  in_range instant = true
  /\ (forall dt', utc_instant dt' = Some instant ->
                  to_utc_z dt' = Ok text)
  /\ (reading 1000 1 1 0 0 <= instant -> length text = 16%nat).
Proof.
  unfold to_utc_z, astimezone, utc_instant.
  destruct (dt_tzinfo dt) as [zone|]; [|discriminate].
  cbn [utc fixed_zone offset_at_utc default from_option id].
  intros [= <-]. set (instant := wall dt - _). rewrite Z.add_0_r.
  destruct (in_range instant) eqn:Hr; [|discriminate].
  cbn [bind]. intros [= <-].
  split; [reflexivity|]. split.
  - intros dt'. destruct (dt_tzinfo dt') as [zone'|]; [|discriminate].
    cbn [default from_option id]. intros [= ->].
    rewrite Z.add_0_r, Hr. reflexivity.
  - intros Hy. apply strftime_YmdTHMSZ_length; [exact Hr | exact Hy].
Qed.

Lemma join_app (sep : list N) l1 l2 :
  l1 <> [] -> l2 <> [] ->
  join sep (l1 ++ l2) = join sep l1 ++ sep ++ join sep l2.
Proof.
  intros H1 H2. induction l1 as [|a [|a' l1] IH]; [congruence| |].
  - destruct l2; [congruence | reflexivity].
  - change (join sep ((a :: a' :: l1) ++ l2))
      with (a ++ sep ++ join sep ((a' :: l1) ++ l2)).
    rewrite IH by discriminate.
    change (join sep (a :: a' :: l1)) with (a ++ sep ++ join sep (a' :: l1)).
    rewrite <- !app_assoc. reflexivity.
Qed.

(** X15.  On success the file is the fixed five-line header, then the
    lines of the blocks in the order of the records, then
    END:VCALENDAR, every line ended by CRLF, the last one too; without
    blocks it is the header and the trailer alone. *)
Theorem main_document_frame prog in_path out_path input tz blocks :
  ZoneInfo (default "America/New_York"%string environ_TZ) = Ok tz ->
  mapM (export_event fromisoformat hash clock tz) (payload_events input)
  = Ok blocks ->
  let body :=
    match concat blocks with
    | [] => []
    | lines => join crlf lines ++ crlf
    end in
  exists confirmation,
    main fromisoformat hash ZoneInfo environ_TZ clock
         [prog; in_path; out_path] input
    = Ok {| written :=
              join crlf calendar_header ++ crlf ++ body
              ++ lit "END:VCALENDAR" ++ crlf;
            stdout := confirmation |}.
Proof.
  intros Hz Hblocks body. unfold main, calendar_lines.
  rewrite Hz. cbn [bind]. rewrite Hblocks. cbn [bind].
  eexists. do 2 f_equal.
  rewrite join_app by (try discriminate; destruct (concat blocks);
                       discriminate).
  rewrite <- !app_assoc. do 2 f_equal. unfold body.
  destruct (concat blocks) as [|l ls] eqn:E; [reflexivity|].
  rewrite join_app by discriminate.
  rewrite <- !app_assoc. reflexivity.
Qed.

Lemma lstrip_spaces (s : list N) :
  Forall (fun c => is_space c = true) s -> lstrip s = [].
Proof.
  induction 1 as [|c s Hc _ IH]; simpl; [reflexivity|].
  rewrite Hc. exact IH.
Qed.

(** X16.  The title of a record is never empty: a title that is
    missing, null, empty or made of whitespace only is replaced by
    "(No Title)". *)
Theorem event_title_never_empty (e : gmap string json) :
  (forall t, event_title e = Ok t -> t <> [])
  /\ (e !! "title" = None -> event_title e = Ok (lit "(No Title)"))
  /\ (e !! "title" = Some JNull -> event_title e = Ok (lit "(No Title)"))
  /\ (forall s, e !! "title" = Some (JStr s) ->
                Forall (fun c => is_space c = true) s ->
                event_title e = Ok (lit "(No Title)")).
Proof.
  unfold event_title, get. split.
  { intros t. destruct (stripped _) as [t'|]; [|discriminate].
    cbn [bind]. unfold or_else.
    destruct (str_eqb t' []) eqn:E; intros [= <-]; [discriminate|].
    apply str_eqb_neq, E. }
  split; [intros ->; reflexivity|].
  split; [intros ->; reflexivity|].
  intros s -> Hs. cbn [default from_option id stripped bind].
  unfold strip. rewrite (lstrip_spaces s Hs). reflexivity.
Qed.

Lemma event_uid_nonempty (h : list N * json * json -> Z) title
      (e : gmap string json) u :
  event_uid h title e = Ok u -> u <> [].
Proof.
  unfold event_uid. destruct (stripped _) as [i|]; [|discriminate].
  cbn [bind]. unfold or_else. destruct (str_eqb i []) eqn:E; intros H.
  - assert (Hu : u = fallback_uid h title e) by congruence.
    rewrite Hu. discriminate.
  - assert (Hu : u = i) by congruence.
    rewrite Hu. apply str_eqb_neq, E.
Qed.

(** X17.  A record with an id that is not blank keeps the trimmed id as
    its UID, whatever the hash of the process and whatever its title; and
    no UID is ever empty. *)
Theorem event_uid_keeps_id (hash1 hash2 : list N * json * json -> Z)
        title1 title2 (e : gmap string json) i :
  stripped (get e "id") = Ok i -> i <> [] ->
  event_uid hash1 title1 e = Ok i
  /\ event_uid hash2 title2 e = Ok i
  /\ (forall (e' : gmap string json) title u,
        event_uid hash1 title e' = Ok u -> u <> []).
Proof.
  intros Hid Hne. unfold event_uid. rewrite Hid. cbn [bind].
  unfold or_else.
  rewrite (proj2 (str_eqb_neq i []) Hne).
  repeat split.
  intros e' title u. apply event_uid_nonempty.
Qed.

Lemma mapM_app_inv {A B} (f : A -> result B) l1 l2 bs :
  mapM f (l1 ++ l2) = Ok bs ->
  exists b1 b2,
    mapM f l1 = Ok b1 /\ mapM f l2 = Ok b2 /\ bs = b1 ++ b2
    /\ length b1 = length l1.
Proof.
  revert bs. induction l1 as [|a l1 IH]; intros bs; simpl.
  - intros H. exists [], bs. auto.
  - destruct (f a) as [b|]; [|discriminate]. cbn [bind].
    destruct (mapM f (l1 ++ l2)) as [bs'|] eqn:E; [|discriminate].
    cbn [bind]. intros H.
    destruct (IH bs' eq_refl) as (b1 & b2 & -> & -> & -> & Hlen).
    exists (b :: b1), b2. cbn [bind]. simpl.
    repeat split; [congruence | lia].
Qed.

Lemma all_day_lines_two tz s e ls :
  all_day_lines tz s e = Ok ls -> length ls = 2%nat.
Proof.
  unfold all_day_lines.
  destruct (astimezone utc tz s); [|discriminate]. cbn [bind].
  destruct (astimezone utc tz e); [|discriminate]. cbn [bind].
  destruct (if _ <=? _ then _ else _); [|discriminate]. cbn [bind].
  intros H. assert (Hl : length ls = 2%nat) by (injection H as <-; reflexivity).
  exact Hl.
Qed.

Lemma timed_lines_two s e ls :
  timed_lines s e = Ok ls -> length ls = 2%nat.
Proof.
  unfold timed_lines.
  destruct (to_utc_z s); [|discriminate]. cbn [bind].
  destruct (to_utc_z e); [|discriminate]. cbn [bind].
  intros H. injection H as <-. reflexivity.
Qed.

Lemma optional_line_at_most_one label v ls :
  optional_line label v = Ok ls -> (length ls <= 1)%nat.
Proof.
  unfold optional_line.
  destruct (stripped v) as [t|]; [|discriminate]. cbn [bind].
  intros H. injection H as <-. destruct (str_eqb t []); simpl; lia.
Qed.

(** X18.  What a record adds to the calendar is nothing, when it is
    skipped, or one block: BEGIN:VEVENT first, END:VEVENT last, and
    between them five to seven entries (UID, DTSTAMP, DTSTART, DTEND,
    SUMMARY, and LOCATION and DESCRIPTION when they are not blank). *)
Theorem export_event_block tz (e : gmap string json) ls :
  export_event fromisoformat hash clock tz e = Ok ls ->
  if missing_times e then ls = []
  else exists middle,
         ls = lit "BEGIN:VEVENT" :: middle ++ [lit "END:VEVENT"]
         /\ (5 <= length middle <= 7)%nat.
Proof.
  unfold export_event, missing_times.
  destruct (event_title e) as [title|]; [|discriminate]. cbn [bind].
  destruct (event_uid hash title e) as [uid|]; [|discriminate]. cbn [bind].
  destruct (negb (truthy (get e "start")) || negb (truthy (get e "end"))).
  { intros H. congruence. }
  destruct (parse_iso8601 _ (get e "start")); [|discriminate]. cbn [bind].
  destruct (parse_iso8601 _ (get e "end")); [|discriminate]. cbn [bind].
  destruct (to_utc_z (now clock)) as [stamp|]; [|discriminate]. cbn [bind].
  destruct (if truthy (all_day_field e) then _ else _) as [dates|] eqn:Ed;
    [|discriminate]. cbn [bind].
  destruct (optional_line _ (get e "location")) as [loc|] eqn:El;
    [|discriminate]. cbn [bind].
  destruct (optional_line _ (get e "notes")) as [notes|] eqn:En;
    [|discriminate]. cbn [bind].
  assert (Hd : length dates = 2%nat).
  { destruct (truthy (all_day_field e)).
    - eapply all_day_lines_two, Ed.
    - eapply timed_lines_two, Ed. }
  apply optional_line_at_most_one in El, En.
  set (inner := [lit "UID:" ++ escape_ics_text uid; lit "DTSTAMP:" ++ stamp]
                ++ dates ++ [lit "SUMMARY:" ++ escape_ics_text title]
                ++ loc ++ notes).
  intros H.
  assert (H' : mapM fold_ics_line
                 ([lit "BEGIN:VEVENT"] ++ inner ++ [lit "END:VEVENT"])
               = Ok ls).
  { rewrite <- H. f_equal. unfold inner.
    rewrite <- !app_assoc. reflexivity. }
  clear H.
  apply mapM_app_inv in H'.
  destruct H' as (b1 & rest & H1 & H2 & -> & _).
  apply mapM_app_inv in H2.
  destruct H2 as (middle & b3 & _ & H3 & -> & Hlen).
  change (mapM fold_ics_line [lit "BEGIN:VEVENT"])
    with (Ok [lit "BEGIN:VEVENT"]) in H1.
  change (mapM fold_ics_line [lit "END:VEVENT"])
    with (Ok [lit "END:VEVENT"]) in H3.
  assert (b1 = [lit "BEGIN:VEVENT"]) as -> by congruence.
  assert (b3 = [lit "END:VEVENT"]) as -> by congruence.
  exists middle. split; [reflexivity|].
  rewrite Hlen. unfold inner. rewrite !length_app, Hd. simpl. lia.
Qed.

Lemma endswith_Z (s : list N) :
  endswith (s ++ lit "Z") (lit "Z") = true
  /\ take (length (s ++ lit "Z") - 1) (s ++ lit "Z") = s
  /\ endswith (s ++ lit "+00:00") (lit "Z") = false.
Proof.
  unfold endswith. rewrite !length_app.
  change (length (lit "Z")) with 1%nat.
  change (length (lit "+00:00")) with 6%nat.
  replace (length s + 1 - 1)%nat with (length s) by lia.
  replace (length s + 6 - 1)%nat with (length s + 5)%nat by lia.
  rewrite drop_app_length, take_app_length.
  split; [|split; [reflexivity|]].
  - apply andb_true_iff. split; [reflexivity | apply Nat.leb_le; lia].
  - apply andb_false_iff. left. apply str_eqb_neq.
    change (lit "+00:00") with (lit "+00:0" ++ lit "0").
    rewrite app_assoc.
    replace (length s + 5)%nat with (length (s ++ lit "+00:0"))
      by (rewrite length_app; reflexivity).
    rewrite drop_app_length. discriminate.
Qed.

(** X19.  In both tools a timestamp ending in Z is parsed as the same
    text with the Z replaced by +00:00: the two spellings give the same
    result, whatever the parser does with it. *)
Theorem z_suffix_means_utc (s : list N) :
  parse_iso8601 fromisoformat (JStr (s ++ lit "Z"))
  = fromisoformat (s ++ lit "+00:00")
  /\ parse_iso8601 fromisoformat (JStr (s ++ lit "Z"))
     = parse_iso8601 fromisoformat (JStr (s ++ lit "+00:00"))
  /\ Agenda.parse_iso8601_z fromisoformat system_tz (JStr (s ++ lit "Z"))
     = Agenda.parse_iso8601_z fromisoformat system_tz
                              (JStr (s ++ lit "+00:00")).
Proof.
  destruct (endswith_Z s) as (H1 & H2 & H3).
  unfold parse_iso8601, Agenda.parse_iso8601_z.
  rewrite H1, H2, H3. auto.
Qed.

End ExporterMore.

Lemma escape_ics_text_fixed_iff_witness :
  escape_ics_text (lit "Standup") = lit "Standup".
Proof.
  apply (proj2 (escape_ics_text_fixed_iff (lit "Standup"))). reflexivity.
Defined.

Lemma null_start_skipped_or_fatal_witness :
  Exporter.export_event datetime_fromisoformat (fun _ => 0) sample_clock
                        america_new_york_2026 (<["start" := JNull]> standup)
  = Ok []
  /\ Agenda.match_event datetime_fromisoformat america_new_york_2026 utc
       {| wall := reading 2026 2 19 5 0; dt_tzinfo := Some utc |}
       {| wall := reading 2026 2 20 5 0; dt_tzinfo := Some utc |}
       (<["start" := JNull]> standup)
     = Raise AttributeError.
Proof.
  destruct (null_start_skipped_or_fatal datetime_fromisoformat (fun _ => 0)
              america_new_york_2026 utc sample_clock
              (<["start" := JNull]> standup) JNull
              (JStr (lit "2026-02-19T14:15:00.000Z")))
    as [Hexport Hagenda]; try reflexivity.
  - intros s. discriminate.
  - split; [apply Hexport | apply Hagenda].
Defined.

Lemma main_fails_on_bad_start_witness :
  Exporter.main datetime_fromisoformat (fun _ => 0) zoneinfo_2026 None
                sample_clock exporter_argv
                {| events_key :=
                     Some ([standup]
                           ++ <["start" := JStr (lit "soon")]> standup
                           :: [standup]) |}
  = Raise ValueError.
Proof.
  assert (Hpre : mapM (Exporter.export_event datetime_fromisoformat
                         (fun _ => 0) sample_clock america_new_york_2026)
                      [standup] = Ok _) by (vm_compute; reflexivity).
  apply (main_fails_on_bad_start datetime_fromisoformat (fun _ => 0)
           zoneinfo_2026 None sample_clock
           (lit "json_to_ics.py") (lit "exchange.json")
           (lit "exchange.ics") america_new_york_2026 [standup]
           (<["start" := JStr (lit "soon")]> standup) [standup] _
           ValueError eq_refl Hpre); reflexivity.
Defined.

Lemma to_utc_z_renders_instant_witness :
  Exporter.to_utc_z
    {| wall := reading 2026 2 19 9 0;
       dt_tzinfo := Some (fixed_zone (-5 * 3600 * us_per_second)) |}
  = Ok (lit "20260219T140000Z")
  /\ Exporter.to_utc_z
       {| wall := reading 2026 2 19 14 0; dt_tzinfo := Some utc |}
     = Ok (lit "20260219T140000Z").
Proof.
  assert (E : Exporter.to_utc_z
                {| wall := reading 2026 2 19 9 0;
                   dt_tzinfo :=
                     Some (fixed_zone (-5 * 3600 * us_per_second)) |}
              = Ok (lit "20260219T140000Z")) by (vm_compute; reflexivity).
  split; [exact E|].
  destruct (to_utc_z_renders_instant
              {| wall := reading 2026 2 19 9 0;
                 dt_tzinfo :=
                   Some (fixed_zone (-5 * 3600 * us_per_second)) |}
              (reading 2026 2 19 14 0) (lit "20260219T140000Z"))
    as (_ & Hsame & _); [reflexivity | exact E |].
  apply Hsame. reflexivity.
Defined.

Lemma main_document_frame_witness :
  exists body confirmation,
    Exporter.main datetime_fromisoformat (fun _ => 0) zoneinfo_2026 None
                  sample_clock exporter_argv
                  {| events_key := Some [standup] |}
    = Ok {| Exporter.written :=
              join crlf Exporter.calendar_header ++ crlf ++ body
              ++ lit "END:VCALENDAR" ++ crlf;
            Exporter.stdout := confirmation |}.
Proof.
  assert (Hb : mapM (Exporter.export_event datetime_fromisoformat
                       (fun _ => 0) sample_clock america_new_york_2026)
                    (payload_events {| events_key := Some [standup] |})
               = Ok _) by (vm_compute; reflexivity).
  destruct (main_document_frame datetime_fromisoformat (fun _ => 0)
              zoneinfo_2026 None sample_clock
              (lit "json_to_ics.py") (lit "exchange.json")
              (lit "exchange.ics") {| events_key := Some [standup] |}
              america_new_york_2026 _ eq_refl Hb) as (confirmation & E).
  eexists _, confirmation. exact E.
Defined.

Lemma event_title_never_empty_witness :
  Exporter.event_title (<["title" := JStr (lit "   ")]> standup)
  = Ok (lit "(No Title)").
Proof.
  destruct (event_title_never_empty
              (<["title" := JStr (lit "   ")]> standup))
    as (_ & _ & _ & Hblank).
  apply (Hblank (lit "   ")); [reflexivity|].
  repeat constructor.
Defined.

Lemma event_uid_keeps_id_witness :
  Exporter.event_uid (fun _ => 1) (lit "Standup") standup = Ok (lit "S1")
  /\ Exporter.event_uid (fun _ => 2) (lit "Stand-up") standup
     = Ok (lit "S1").
Proof.
  destruct (event_uid_keeps_id (fun _ => 1) (fun _ => 2)
              (lit "Standup") (lit "Stand-up") standup (lit "S1"))
    as (H1 & H2 & _).
  - reflexivity.
  - discriminate.
  - split; [exact H1 | exact H2].
Defined.

Lemma export_event_block_witness :
  exists middle,
    Exporter.export_event datetime_fromisoformat (fun _ => 0) sample_clock
                          america_new_york_2026 standup
    = Ok (lit "BEGIN:VEVENT" :: middle ++ [lit "END:VEVENT"])
    /\ (5 <= length middle <= 7)%nat.
Proof.
  assert (E : Exporter.export_event datetime_fromisoformat (fun _ => 0)
                sample_clock america_new_york_2026 standup = Ok _)
    by (vm_compute; reflexivity).
  pose proof (export_event_block datetime_fromisoformat (fun _ => 0)
                sample_clock america_new_york_2026 standup _ E) as H.
  change (missing_times standup) with false in H.
  destruct H as (middle & Hls & Hlen).
  exists middle. split; [|exact Hlen].
  rewrite E. f_equal. exact Hls.
Defined.

(** ** Folding and unfolding *)

Section UnfoldMore.

Lemma unfold_ics_cons c (s : list N) :
  (c <> 13%N \/ head s <> Some 10%N) ->
  unfold_ics (c :: s) = c :: unfold_ics s.
Proof.
  intros H.
  destruct c as [|[[[|[]|]|[[]|[]|]|]|[]|]]; try reflexivity.
  (* c = 13 *)
  destruct H as [H|H]; [congruence|].
  destruct s as [|d s]; [reflexivity|].
  destruct d as [|[[]|[[[]|[]|]|[]|]|]]; try reflexivity.
  simpl in H. congruence.
Qed.

(** Unfolding copies a stretch without line feed that is not followed by
    one. *)
Lemma unfold_ics_app (a b : list N) :
  Forall (fun c => c <> 10%N) a -> head b <> Some 10%N ->
  unfold_ics (a ++ b) = a ++ unfold_ics b.
Proof.
  intros Ha Hb. induction Ha as [|c a Hc Ha IH]; [reflexivity|].
  simpl app. rewrite unfold_ics_cons, IH; [reflexivity|].
  right. destruct Ha as [|d a Hd _]; simpl; [exact Hb | congruence].
Qed.

Lemma unfold_ics_segments (first : list N) chunks :
  Forall (fun c => c <> 10%N) first ->
  Forall (Forall (fun c => c <> 10%N)) chunks ->
  unfold_ics (join crlf (first :: map (cons ch_space) chunks))
  = first ++ concat chunks.
Proof.
  intros Hfirst Hchunks. revert first Hfirst.
  induction Hchunks as [|c chunks Hc _ IH]; intros first Hfirst.
  - simpl. rewrite <- (app_nil_r first) at 1.
    rewrite unfold_ics_app by (try assumption; discriminate).
    reflexivity.
  - cbn [map]. rewrite join_cons_cons.
    rewrite unfold_ics_app by (try assumption; discriminate).
    f_equal. cbn [concat].
    destruct chunks as [|c' chunks].
    + cbn [map join] in *. simpl app.
      change (unfold_ics (13%N :: 10%N :: ch_space :: c))
        with (unfold_ics c).
      specialize (IH c Hc). cbn [map join concat] in IH.
      rewrite app_nil_r in *. exact IH.
    + specialize (IH c Hc). cbn [map] in IH.
      rewrite join_cons_cons in IH.
      cbn [map]. rewrite join_cons_cons.
      change (crlf ++ (ch_space :: c) ++ ?x)
        with (13%N :: 10%N :: ch_space :: (c ++ x)).
      exact IH.
Qed.

(** X20.  Folding can be undone: for every line without a line feed,
    [fold_ics_line] returns, and unfolding what it returns gives the line
    back. *)
Theorem fold_then_unfold (line : list N) :
  Forall (fun c => c <> 10%N) line ->
  exists folded,
    fold_ics_line line = Ok folded /\ unfold_ics folded = line.
Proof.
  intros Hline.
  destruct (Nat.le_gt_cases (length line) 75) as [H|H].
  - exists line. split; [apply fold_ics_line_short, H|].
    rewrite <- (app_nil_r line) at 1.
    rewrite unfold_ics_app by (try assumption; discriminate).
    apply app_nil_r.
  - destruct (fold_ics_line_long line H) as (chunks & E & _ & Hcat & _).
    eexists. split; [exact E|].
    rewrite <- Hcat in Hline. apply Forall_app in Hline.
    destruct Hline as [Hfirst Hrest].
    rewrite unfold_ics_segments; [exact Hcat | exact Hfirst |].
    apply Forall_concat, Hrest.
Qed.

Lemma fold_then_unfold_witness :
  exists folded,
    fold_ics_line (repeat 65%N 200) = Ok folded
    /\ unfold_ics folded = repeat 65%N 200.
Proof.
  apply (fold_then_unfold (repeat 65%N 200)).
  apply List.Forall_forall. intros c Hc.
  apply repeat_spec in Hc. rewrite Hc. discriminate.
Defined.

(** X21.  Every line of a block can be unfolded: a property line made of
    a label without line feed and an escaped text folds to a text that
    unfolds to the line again. *)
Theorem property_line_unfolds (label text : list N) :
  Forall (fun c => c <> 10%N) label ->
  exists folded,
    fold_ics_line (label ++ escape_ics_text text) = Ok folded
    /\ unfold_ics folded = label ++ escape_ics_text text.
Proof.
  intros Hlabel.
  destruct (Nat.le_gt_cases (length (label ++ escape_ics_text text)) 75)
    as [H|H].
  - eexists. split; [apply fold_ics_line_short, H|].
    rewrite <- (app_nil_r (label ++ _)) at 1.
    rewrite unfold_ics_app; [apply app_nil_r | | discriminate].
    apply Forall_app. split; [exact Hlabel|].
    apply escape_no_lf.
  - destruct (fold_ics_line_long _ H) as (chunks & E & _ & Hcat & _).
    eexists. split; [exact E|].
    assert (Hline : Forall (fun c => c <> 10%N)
                      (label ++ escape_ics_text text)).
    { apply Forall_app. split; [exact Hlabel | apply escape_no_lf]. }
    rewrite <- Hcat in Hline. apply Forall_app in Hline.
    destruct Hline as [Hfirst Hrest].
    rewrite unfold_ics_segments; [exact Hcat | exact Hfirst |].
    apply Forall_concat, Hrest.
Qed.

Lemma property_line_unfolds_witness :
  exists folded,
    fold_ics_line (lit "SUMMARY:" ++ escape_ics_text (repeat 44%N 100))
    = Ok folded
    /\ unfold_ics folded
       = lit "SUMMARY:" ++ escape_ics_text (repeat 44%N 100).
Proof.
  apply (property_line_unfolds (lit "SUMMARY:") (repeat 44%N 100)).
  repeat (constructor; [discriminate|]). constructor.
Defined.

End UnfoldMore.

(** ** Command lines *)

Section UsageMore.

Variable fromisoformat : list N -> result datetime.
Variable date_fromisoformat : list N -> option Z.
Variable hash : list N * json * json -> Z.
Variable ZoneInfo : string -> result tzinfo.
Variable environ_TZ : option string.
Variable LOCAL_TZ system_tz : tzinfo.
Variable clock : Z.


End UsageMore.

